(** * Flavor Extractor Demo ([app.py]): a shallow embedding and its properties

    The Streamlit page [app.py] sends one package image to a remote
    text-generation service and shows the JSON the service answers with.
    This development embeds the helper functions of the page

      - [required_fields], [extract_output_text], [call_openai],
      - [file_to_data_url], [normalize_drive_url], [fetch_image_url],
      - [validate_api_key], and the result-display tail of the script,

    as Rocq functions, and proves the properties the specification states
    about them.

    Conventions.
      - A Python [str] is a list of Unicode code points ([list N]); [py "..."]
        turns a literal of the source into such a list.
      - A Python [bytes] is a [list byte].
      - A decoded JSON value is a [json]; a dictionary is a [gmap] from keys
        to values.
      - A Python call that may raise returns a [result]; the exception is a
        value of [exn].
      - The outside world (the HTTP library, [json.loads], [json.dumps],
        [repr] of floats and containers) enters through Section variables:
        what the remote end answers is an argument of the functions. *)

From Stdlib Require Import ZArith NArith List Ascii String Floats Lia.
From Stdlib.Strings Require Import Byte.
From stdpp Require Import base option list gmap strings pretty.

Local Open Scope Z_scope.

(* ===================================================================== *)
(** * Part I: definitions                                                 *)
(* ===================================================================== *)

(** ** Python sequences: the operations of [str] the page uses *)

Module PySeq.
Section ops.
Context {A : Type} `{EqDecision A}.

(** [s.startswith(p)] *)
Fixpoint startswith (p s : list A) : bool :=
  match p, s with
  | [], _ => true
  | _ :: _, [] => false
  | x :: p', y :: s' => if decide (x = y) then startswith p' s' else false
  end.

(** [s.endswith(p)] *)
Definition endswith (p s : list A) : bool := startswith (rev p) (rev s).

(** [s.find(p)]: the index of the leftmost occurrence of [p] in [s]. *)
Fixpoint find (p s : list A) : option nat :=
  if startswith p s then Some 0%nat
  else match s with
       | [] => None
       | _ :: s' => S <$> find p s'
       end.

(** [p in s] *)
Definition contains (p s : list A) : bool :=
  match find p s with Some _ => true | None => false end.

(** [s.split(sep)] for a non-empty [sep]: cut at the leftmost occurrence,
    go on behind it.  Every iteration consumes at least one element, so
    [length s] iterations are enough ([split] below).  Python raises
    [ValueError] for an empty separator; every call in [app.py] passes a
    non-empty literal. *)
Fixpoint split_fuel (n : nat) (sep s : list A) : list (list A) :=
  match n with
  | O => [s]
  | S n' =>
      match find sep s with
      | None => [s]
      | Some i => take i s :: split_fuel n' sep (drop (i + length sep) s)
      end
  end.

Definition split (sep s : list A) : list (list A) :=
  split_fuel (length s) sep s.

(** A separator overlaps itself at offset [k] when its last
    [length sep - k] elements are its first ones (it has a border).  The
    scan of [split] then may take an occurrence that begins [k] elements
    before another one and skip the latter. *)
Definition overlaps_at (sep : list A) (k : nat) : Prop :=
  (0 < k < length sep)%nat /\ drop k sep = take (length sep - k) sep.

(** [xs[-1]] and [xs[0]] on the result of a [split], which is never empty. *)
Definition item_last (xs : list (list A)) : list A := List.last xs [].
Definition item_first (xs : list (list A)) : list A := List.hd [] xs.

(** [sep.join(xs)] *)
Fixpoint join (sep : list A) (xs : list (list A)) : list A :=
  match xs with
  | [] => []
  | x :: rest =>
      match rest with
      | [] => x
      | _ :: _ => x ++ sep ++ join sep rest
      end
  end.
End ops.
End PySeq.

(** ** Python strings *)

Definition str : Type := list N.

(** A literal of the source as a [str]. *)
Definition py (s : string) : str :=
  List.map N_of_ascii (list_ascii_of_string s).

Arguments py : simpl never.

(** [str(n)] for an [int]. *)
Definition str_of_int (z : Z) : str := py (pretty z).

(** The code points [str.strip()] removes (Python's [str.isspace]). *)
Definition is_space (c : N) : bool :=
  ((9 <=? c) && (c <=? 13) || (28 <=? c) && (c <=? 32)
   || (c =? 133) || (c =? 160) || (c =? 5760)
   || (8192 <=? c) && (c <=? 8202)
   || (c =? 8232) || (c =? 8233) || (c =? 8239) || (c =? 8287)
   || (c =? 12288))%N.

Fixpoint lstrip (s : str) : str :=
  match s with
  | [] => []
  | c :: s' => if is_space c then lstrip s' else s
  end.

Definition rstrip (s : str) : str := rev (lstrip (rev s)).

(** [s.strip()] *)
Definition strip (s : str) : str := rstrip (lstrip s).

(** ** [normalize_drive_url] (app.py, lines 148-157) *)

Definition canonical_drive_url (file_id : str) : str :=
  py "https://drive.google.com/uc?export=download&id=" ++ file_id.

Definition normalize_drive_url (url : str) : str :=
  if negb (PySeq.contains (py "drive.google.com") url) then url
  else if PySeq.contains (py "id=") url then
    let file_id :=
      PySeq.item_first
        (PySeq.split (py "&") (PySeq.item_last (PySeq.split (py "id=") url))) in
    canonical_drive_url file_id
  else if PySeq.contains (py "/file/d/") url then
    let file_id :=
      PySeq.item_first
        (PySeq.split (py "/")
           (PySeq.item_last (PySeq.split (py "/file/d/") url))) in
    canonical_drive_url file_id
  else url.

(** ** Python values decoded from JSON, exceptions *)

(** What [json.loads] and [resp.json()] produce: [None], [bool], [int],
    [float], [str], [list] and [dict] with [str] keys. *)
#[local] Set Warnings "-register-all".

Inductive json : Type :=
| JNull
| JBool (b : bool)
| JInt (z : Z)
| JFloat (f : float)
| JStr (s : str)
| JArr (items : list json)
| JObj (members : gmap str json).

(** The exceptions the page meets.  All of them derive from [Exception]. *)
Inductive exn : Type :=
| AttributeError            (* [.get] on a value that is no [dict] *)
| TypeError                 (* iterating, joining or [in] on the wrong type *)
| JSONDecodeError           (* [json.loads], [resp.json()] on invalid JSON *)
| RuntimeError (msg : str)  (* raised by [call_openai] itself *)
| RequestException (msg : str) (* raised by [requests] *)
| OtherError (msg : str).

Inductive result (T : Type) : Type :=
| Ok (v : T)
| Raise (e : exn).
Arguments Ok {T} v.
Arguments Raise {T} e.

(** [result] is a monad: [x ← r; k] runs [k] on the value of [r] and lets an
    exception of [r] pass. *)
#[global] Instance result_ret : MRet result := fun T v => Ok v.
#[global] Instance result_bind : MBind result :=
  fun T U k r =>
    match r with
    | Ok v => k v
    | Raise e => Raise e
    end.

(** Truth value of a decoded value ([if t], [bool(t)]). *)
Definition truthy (v : json) : bool :=
  match v with
  | JNull => false
  | JBool b => b
  | JInt z => negb (z =? 0)
  | JFloat f => negb (PrimFloat.eqb f 0%float)
  | JStr s => match s with [] => false | _ => true end
  | JArr items => match items with [] => false | _ => true end
  | JObj members => negb (size members =? 0)%nat
  end.

(** [v.get(key, default)]: only a [dict] has [get]. *)
Definition py_get (v : json) (key : str) (default : json) : result json :=
  match v with
  | JObj members =>
      Ok (match members !! key with Some x => x | None => default end)
  | _ => Raise AttributeError
  end.

(** [v == s] for a [str] literal [s]. *)
Definition eq_str (v : json) (s : str) : bool :=
  match v with
  | JStr t => bool_decide (t = s)
  | _ => false
  end.

(** The items a [for] loop over [v] visits.  A [str] yields its characters
    and a [dict] its keys (in an order the page never depends on: the loop
    bodies of [app.py] call [.get] on the item, which fails on any [str]). *)
Definition py_iter (v : json) : result (list json) :=
  match v with
  | JArr items => Ok items
  | JStr s => Ok (List.map (fun c => JStr [c]) s)
  | JObj members => Ok (List.map (fun kv => JStr (fst kv)) (map_to_list members))
  | _ => Raise TypeError
  end.

(** [key in v] *)
Definition py_in (key : str) (v : json) : result bool :=
  match v with
  | JObj members =>
      Ok (match members !! key with Some _ => true | None => false end)
  | JArr items => Ok (existsb (fun x => eq_str x key) items)
  | JStr s => Ok (PySeq.contains key s)
  | _ => Raise TypeError
  end.

(** [sep.join(xs)] on decoded values: every item has to be a [str]. *)
Fixpoint strs_of (xs : list json) : result (list str) :=
  match xs with
  | [] => Ok []
  | JStr s :: rest => ss ← strs_of rest; Ok (s :: ss)
  | _ :: _ => Raise TypeError
  end.

Definition str_join (sep : str) (xs : list json) : result str :=
  ss ← strs_of xs; Ok (PySeq.join sep ss).

(** ** [required_fields] (app.py, lines 67-78) *)

Definition required_fields : list str :=
  [ py "flavors_list";
    py "multiple_descriptors";
    py "brand_name";
    py "extraction_evidence";
    py "nicotine_content";
    py "size_or_volume";
    py "warning_label_present";
    py "warning_label_location";
    py "main_color" ].

(** ** [extract_output_text] (app.py, lines 81-90) *)

(** The inner loop, [for content in item.get("content", [])], with the
    list [texts] it appends to. *)
Fixpoint collect_content (contents : list json) (texts : list json)
  : result (list json) :=
  match contents with
  | [] => Ok texts
  | content :: rest =>
      ty ← py_get content (py "type") JNull;
      if eq_str ty (py "output_text") then
        t ← py_get content (py "text") (JStr []);
        collect_content rest (texts ++ [t])
      else collect_content rest texts
  end.

(** The outer loop, [for item in output]. *)
Fixpoint collect_output (output : list json) (texts : list json)
  : result (list json) :=
  match output with
  | [] => Ok texts
  | item :: rest =>
      ty ← py_get item (py "type") JNull;
      if negb (eq_str ty (py "message")) then collect_output rest texts
      else
        c ← py_get item (py "content") (JArr []);
        contents ← py_iter c;
        texts' ← collect_content contents texts;
        collect_output rest texts'
  end.

Definition newline : str := [10%N].

Definition extract_output_text (response_json : json) : result str :=
  o ← py_get response_json (py "output") (JArr []);
  output ← py_iter o;
  texts ← collect_output output [];
  str_join newline (List.filter truthy texts).

(** *** The specification's reading of the response envelope

    These definitions follow the words of the specification (section 4.4),
    not the code: the text fragments are the ["text"] members of the
    ["output_text"] entries of the ["content"] lists of the ["message"]
    items of the ["output"] list, in order, and the output text is their
    newline-joined concatenation.  They are compared with
    [extract_output_text] below. *)

Definition field (v : json) (key : str) : option json :=
  match v with
  | JObj members => members !! key
  | _ => None
  end.

Definition items_of (v : option json) : list json :=
  match v with
  | Some (JArr items) => items
  | _ => []
  end.

Definition has_type (v : json) (t : str) : bool :=
  match field v (py "type") with
  | Some x => eq_str x t
  | None => false
  end.

Definition text_of (content : json) : str :=
  match field content (py "text") with
  | Some (JStr s) => s
  | _ => []
  end.

Definition spec_item_fragments (item : json) : list str :=
  if has_type item (py "message") then
    List.map text_of
      (List.filter (fun c => has_type c (py "output_text"))
         (items_of (field item (py "content"))))
  else [].

Definition spec_fragments (response_json : json) : list str :=
  List.flat_map spec_item_fragments (items_of (field response_json (py "output"))).

Definition spec_output_text (response_json : json) : str :=
  PySeq.join newline (spec_fragments response_json).

Definition nonempty (s : str) : bool :=
  match s with [] => false | _ :: _ => true end.

(** A response body of the shape the service documents: an object whose
    ["output"], if present, is a list of objects; the ["content"] of a
    ["message"] item, if present, is a list of objects; the ["text"] of an
    ["output_text"] entry, if present, is a string. *)
Definition is_obj (v : json) : bool :=
  match v with JObj _ => true | _ => false end.

Definition wf_content (c : json) : bool :=
  is_obj c &&
  (if has_type c (py "output_text") then
     match field c (py "text") with
     | None | Some (JStr _) => true
     | Some _ => false
     end
   else true).

Definition wf_item (item : json) : bool :=
  is_obj item &&
  (if has_type item (py "message") then
     match field item (py "content") with
     | None => true
     | Some (JArr contents) => forallb wf_content contents
     | Some _ => false
     end
   else true).

Definition wf_response (response_json : json) : bool :=
  is_obj response_json &&
  match field response_json (py "output") with
  | None => true
  | Some (JArr items) => forallb wf_item items
  | Some _ => false
  end.

(** ** [base64.b64encode] and [file_to_data_url] (app.py, lines 137-145) *)

Module Base64.
(** The character of a sextet in the standard alphabet [A-Za-z0-9+/]. *)
Definition char_of (s : N) : N :=
  (if s <? 26 then 65 + s
   else if s <? 52 then 97 + (s - 26)
   else if s <? 62 then 48 + (s - 52)
   else if s =? 62 then 43
   else 47)%N.

Definition pad : N := 61%N.

(** [base64.b64encode(data).decode("ascii")]: three bytes make four
    characters; one or two bytes left over are padded with [=]. *)
Fixpoint b64encode (data : list byte) : str :=
  match data with
  | [] => []
  | b1 :: rest1 =>
      let n1 := Byte.to_N b1 in
      match rest1 with
      | [] =>
          [char_of (n1 / 4); char_of ((n1 mod 4) * 16); pad; pad]%N
      | b2 :: rest2 =>
          let n2 := Byte.to_N b2 in
          match rest2 with
          | [] =>
              [char_of (n1 / 4);
               char_of ((n1 mod 4) * 16 + n2 / 16);
               char_of ((n2 mod 16) * 4); pad]%N
          | b3 :: rest3 =>
              let n3 := Byte.to_N b3 in
              (char_of (n1 / 4)
               :: char_of ((n1 mod 4) * 16 + n2 / 16)
               :: char_of ((n2 mod 16) * 4 + n3 / 64)
               :: char_of (n3 mod 64)
               :: b64encode rest3)%N
          end
      end
  end.

(** The sextet a character of the alphabet stands for. *)
Definition sextet_of (c : N) : option N :=
  (if (65 <=? c) && (c <=? 90) then Some (c - 65)
   else if (97 <=? c) && (c <=? 122) then Some (c - 97 + 26)
   else if (48 <=? c) && (c <=? 57) then Some (c - 48 + 52)
   else if c =? 43 then Some 62
   else if c =? 47 then Some 63
   else None)%N.

Definition byte_of (n : N) : option byte := Byte.of_N n.

(** The bytes a padded base64 text encodes (RFC 4648, section 4); [None]
    when the text is no base64 text.  The page never decodes: this is the
    meaning of the payload of a data URL, used to state what
    [file_to_data_url] returns. *)
Fixpoint b64decode (s : str) : option (list byte) :=
  match s with
  | [] => Some []
  | c1 :: c2 :: c3 :: c4 :: rest =>
      s1 ← sextet_of c1; s2 ← sextet_of c2;
      if (c3 =? pad)%N then
        if (c4 =? pad)%N && bool_decide (rest = []) then
          x1 ← byte_of (s1 * 4 + s2 / 16)%N; Some [x1]
        else None
      else
        s3 ← sextet_of c3;
        if (c4 =? pad)%N then
          if bool_decide (rest = []) then
            x1 ← byte_of (s1 * 4 + s2 / 16)%N;
            x2 ← byte_of ((s2 mod 16) * 16 + s3 / 4)%N;
            Some [x1; x2]
          else None
        else
          s4 ← sextet_of c4;
          x1 ← byte_of (s1 * 4 + s2 / 16)%N;
          x2 ← byte_of ((s2 mod 16) * 16 + s3 / 4)%N;
          x3 ← byte_of ((s3 mod 4) * 64 + s4)%N;
          tl ← b64decode rest;
          Some (x1 :: x2 :: x3 :: tl)
  | _ => None
  end.
End Base64.

(** A Streamlit [UploadedFile]: what [read()] returns and the [type]
    attribute (the media type the browser declared, if any). *)
Record UploadedFile : Type := {
  read : list byte;
  type_ : option str
}.

Definition data_url (mime : str) (payload : str) : str :=
  py "data:" ++ mime ++ py ";base64," ++ payload.

Definition file_to_data_url (uploaded_file : option UploadedFile) : option str :=
  match uploaded_file with
  | None => None
  | Some f =>
      let data := read f in
      match data with
      | [] => None
      | _ :: _ =>
          let mime :=
            match type_ f with
            | Some (c :: t) => c :: t
            | Some [] | None => py "application/octet-stream"
            end in
          let b64 := Base64.b64encode data in
          Some (data_url mime b64)
      end
  end.

(** ** HTTP: what [requests] hands back *)

(** A [requests.Response], by the attributes the page reads. *)
Record Response : Type := {
  status_code : Z;
  reason : str;
  text : str;                        (* [resp.text] *)
  content : list byte;               (* [resp.content] *)
  content_type_header : option str;  (* [resp.headers.get("Content-Type")] *)
  json_body : result json            (* [resp.json()] *)
}.

(** [resp.ok]: [requests] reports a response as not ok exactly when
    [raise_for_status] would raise, that is for the statuses 400 to 599. *)
Definition ok (resp : Response) : bool :=
  negb ((400 <=? status_code resp) && (status_code resp <? 600)).

(** A request either returns a response or raises; [Failed msg] is an
    exception [exc] with [str(exc) = msg] (a timeout, a refused connection,
    a malformed URL, ...). *)
Inductive outcome : Type :=
| Responded (resp : Response)
| Failed (msg : str).

Definition OPENAI_API_BASE : str := py "https://api.openai.com/v1".
Definition MODEL_ID : str := py "gpt-5.2".

Definition bearer (api_key : str) : list (str * str) :=
  [(py "Authorization", py "Bearer " ++ api_key)].

(** [f"HTTP {resp.status_code} {resp.reason}"] *)
Definition http_status_line (resp : Response) : str :=
  py "HTTP " ++ str_of_int (status_code resp) ++ py " " ++ reason resp.

(** A literal [dict] of the source. *)
Definition dict (kvs : list (str * json)) : json := JObj (list_to_map kvs).

Definition access_hint : str :=
  py " This may be a model access issue; check your API tier and organization verification.".

(** [members.get(key, "")] *)
Definition member (members : gmap str json) (key : str) : json :=
  match members !! key with Some x => x | None => JStr [] end.

Section network.
(** [requests.get(url, headers=..., timeout=...)] and
    [requests.post(url, headers=..., json=..., timeout=...)]. *)
Variable requests_get : str -> list (str * str) -> outcome.
Variable requests_post : str -> list (str * str) -> json -> outcome.
(** [repr] of a [float], a [list] or a [dict], which an f-string prints
    for such a value. *)
Variable py_repr : json -> str.

(** ** [fetch_image_url] (app.py, lines 160-170) *)
Definition fetch_image_url (url : str)
  : option (list byte) * option str * option str :=
  match requests_get url [] with
  | Responded resp =>
      if negb (ok resp) then (None, None, Some (http_status_line resp))
      else
        let content_type :=
          match content_type_header resp with Some t => t | None => [] end in
        if negb (PySeq.startswith (py "image/") content_type) then
          (None, None,
           Some (py "URL did not return an image (Content-Type: "
                 ++ content_type ++ py ")"))
        else (Some (content resp), Some content_type, None)
  | Failed msg => (None, None, Some msg)
  end.

(** ** [validate_api_key] (app.py, lines 173-186) *)
Definition validate_api_key (api_key : str) : bool * str :=
  match api_key with
  | [] => (false, py "Missing API key")
  | _ :: _ =>
      let url := OPENAI_API_BASE ++ py "/models" in
      let headers := bearer api_key in
      match requests_get url headers with
      | Responded resp =>
          if ok resp then (true, py "API key looks valid")
          else if status_code resp =? 401 then (false, py "Invalid API key")
          else (false, http_status_line resp)
      | Failed msg => (false, msg)
      end
  end.

(** ** [call_openai] (app.py, lines 93-134) *)

(** [f"{v}"] for a decoded value. *)
Definition py_format (v : json) : str :=
  match v with
  | JStr s => s
  | JNull => py "None"
  | JBool true => py "True"
  | JBool false => py "False"
  | JInt z => str_of_int z
  | JFloat _ | JArr _ | JObj _ => py_repr v
  end.

Definition payload (system_prompt user_prompt image_url : str) : json :=
  let image_content :=
    dict [(py "type", JStr (py "input_image"));
          (py "image_url", JStr image_url)] in
  dict
    [(py "model", JStr MODEL_ID);
     (py "input",
      JArr
        [dict [(py "role", JStr (py "system"));
               (py "content",
                JArr [dict [(py "type", JStr (py "input_text"));
                            (py "text", JStr system_prompt)]])];
         dict [(py "role", JStr (py "user"));
               (py "content",
                JArr [dict [(py "type", JStr (py "input_text"));
                            (py "text", JStr user_prompt)];
                      image_content])]]);
     (py "text",
      dict [(py "format", dict [(py "type", JStr (py "json_object"))])])].

(** The detail of lines 124-127 as a function of the error object:
    [f"{message} (type={err_type}, code={code})".strip()]. *)
Definition structured_detail (err : gmap str json) : str :=
  strip (py_format (member err (py "message")) ++ py " (type="
         ++ py_format (member err (py "type")) ++ py ", code="
         ++ py_format (member err (py "code")) ++ py ")").

(** The body of the [try] of lines 122-127. *)
Definition error_detail (resp : Response) : result str :=
  body ← json_body resp;
  err ← py_get body (py "error") (JObj ∅);
  message ← py_get err (py "message") (JStr []);
  err_type ← py_get err (py "type") (JStr []);
  code ← py_get err (py "code") (JStr []);
  Ok (strip (py_format message ++ py " (type=" ++ py_format err_type
             ++ py ", code=" ++ py_format code ++ py ")")).

(** The message of the [RuntimeError] of line 133. *)
Definition diagnostic (resp : Response) : str :=
  let detail :=
    match error_detail resp with
    | Ok d => d
    | Raise _ => take 1000 (text resp)      (* [except Exception] *)
    end in
  let hint :=
    if (status_code resp =? 401) || (status_code resp =? 403)
       || (status_code resp =? 404)
    then access_hint else [] in
  http_status_line resp ++ py ": " ++ detail ++ hint.

Definition call_openai (api_key system_prompt user_prompt image_url : str)
  : result json :=
  let url := OPENAI_API_BASE ++ py "/responses" in
  let headers := bearer api_key in
  match requests_post url headers
          (payload system_prompt user_prompt image_url) with
  | Failed msg => Raise (RequestException msg)
  | Responded resp =>
      if negb (ok resp) then Raise (RuntimeError (diagnostic resp))
      else json_body resp
  end.
End network.

(** ** The result display (app.py, lines 274-295) *)

(** The widgets the script emits, in order. *)
Inductive widget : Type :=
| st_warning (msg : str)
| st_json (v : json)
| st_code (s : str)
| st_download_button (label data file_name mime : str).

(** The two slots of [st.session_state] the display reads. *)
Record session_state : Type := {
  last_response_json : option json;
  last_output_text : option str
}.

Section display.
(** [json.loads] and [json.dumps(_, ensure_ascii=False, indent=2)]. *)
Variable json_loads : str -> result json.
Variable json_dumps : json -> str.

(** [k not in members], for the members of a [dict]. *)
Definition absent_in (members : gmap str json) (k : str) : bool :=
  match members !! k with Some _ => false | None => true end.

(** [[k for k in fields if k not in parsed]] *)
Fixpoint missing_of (fields : list str) (parsed : json) : result (list str) :=
  match fields with
  | [] => Ok []
  | k :: rest =>
      present ← py_in k parsed;
      more ← missing_of rest parsed;
      Ok (if (present : bool) then more else k :: more)
  end.

Definition missing (parsed : json) : result (list str) :=
  missing_of required_fields parsed.

(** The [try] body of lines 282-292, behind a successful [json.loads]:
    the widgets emitted, and whether an exception leaves the block. *)
Definition show_parsed (parsed : json) : list widget * result unit :=
  match missing parsed return list widget * result unit with
  | Raise e => ([st_json parsed], Raise e)
  | Ok absent =>
      ([st_json parsed]
       ++ match absent with
          | [] => []
          | _ :: _ =>
              [st_warning (py "JSON missing required fields: "
                           ++ PySeq.join (py ", ") absent)]
          end
       ++ [st_download_button (py "Download JSON") (json_dumps parsed)
             (py "extraction.json") (py "application/json")],
       Ok ())
  end.

Definition show_last_result (st : session_state)
  : list widget * result unit :=
  match last_output_text st with
  | None => ([], Ok ())
  | Some output_text =>
      let response_json :=
        match last_response_json st with Some r => r | None => JObj ∅ end in
      match output_text with
      | [] =>
          ([st_warning
              (py "No output_text found in response. Showing raw response.");
            st_json response_json], Ok ())
      | _ :: _ =>
          match json_loads output_text with
          | Ok parsed => show_parsed parsed
          | Raise JSONDecodeError =>
              ([st_warning (py "Output is not valid JSON. Showing raw text.");
                st_code output_text], Ok ())
          | Raise e => ([], Raise e)
          end
      end
  end.
End display.

(** ** Sample data *)

(** A [content] entry of type ["output_text"]. *)
Definition output_text_entry (t : str) : json :=
  dict [(py "type", JStr (py "output_text")); (py "text", JStr t)].

(** A response body with a reasoning item and one message whose content
    holds the fragments ["{"], [""] and ["}"] and a refusal entry. *)
Definition sample_response : json :=
  dict
    [(py "id", JStr (py "resp_1"));
     (py "output",
      JArr
        [dict [(py "type", JStr (py "reasoning"))];
         dict [(py "type", JStr (py "message"));
               (py "content",
                JArr [output_text_entry (py "{");
                      output_text_entry [];
                      dict [(py "type", JStr (py "refusal"));
                            (py "text", JStr (py "no"))];
                      output_text_entry (py "}")])]])].

(** A response with the given status line, body text and decoded body. *)
Definition sample_resp (status : Z) (phrase body_text : str)
    (ctype : option str) (body : result json) : Response :=
  {| status_code := status; reason := phrase; text := body_text;
     content := [x89; x50; x4e; x47];
     content_type_header := ctype; json_body := body |}.

(** A remote end that answers every GET with the same outcome. *)
Definition always (o : outcome) : str -> list (str * str) -> outcome :=
  fun _ _ => o.

(** A remote end that answers every POST with the same outcome. *)
Definition always_post (o : outcome)
  : str -> list (str * str) -> json -> outcome :=
  fun _ _ _ => o.

(** The double quote, which a literal of this file cannot hold. *)
Definition dquote : str := [34%N].

(** The body a proxy in front of the service answers an unknown route
    with: a JSON object that holds no ["error"] member. *)
Definition not_found_text : str :=
  py "{" ++ dquote ++ py "detail" ++ dquote ++ py ":" ++ dquote
  ++ py "Not Found" ++ dquote ++ py "}".

Definition not_found_resp : Response :=
  sample_resp 404 (py "Not Found") not_found_text
    (Some (py "application/json"))
    (Ok (dict [(py "detail", JStr (py "Not Found"))])).

(** The error body of the service itself. *)
Definition quota_resp : Response :=
  sample_resp 429 (py "Too Many Requests") (py "...")
    (Some (py "application/json"))
    (Ok (dict [(py "error",
                dict [(py "message", JStr (py "You exceeded your current quota."));
                      (py "type", JStr (py "insufficient_quota"));
                      (py "code", JNull)])])).

(** Stand-ins for [repr], [json.loads] and [json.dumps] in the examples. *)

(** [repr] of the empty list; the examples print no other container and
    no float. *)
Definition sample_repr (v : json) : str :=
  match v with
  | JArr [] => py "[]"
  | _ => py "..."
  end.

(** [sample_loads] decides the texts whose decoding needs no grammar: a
    text that is empty, or whose first character behind the leading
    whitespace cannot begin a JSON value, is rejected with
    [JSONDecodeError], as [json.loads] rejects it ("Expecting value"); the
    literals [null], [true], [false], [{}] and [[]] are decoded; every
    other text is outside the stand-in and answered with [OtherError]. *)
Definition json_space (c : N) : bool :=
  ((c =? 32) || (c =? 9) || (c =? 10) || (c =? 13))%N.

Fixpoint skip_space (s : str) : str :=
  match s with
  | [] => []
  | c :: s' => if json_space c then skip_space s' else s
  end.

(** The characters a JSON value (as [json.loads] reads it, [NaN] and
    [Infinity] included) can begin with. *)
Definition begins_value (c : N) : bool :=
  ((c =? 123) || (c =? 91) || (c =? 34) || (c =? 45)
   || (48 <=? c) && (c <=? 57)
   || (c =? 116) || (c =? 102) || (c =? 110) || (c =? 78) || (c =? 73))%N.

Definition sample_loads (s : str) : result json :=
  match skip_space s with
  | [] => Raise JSONDecodeError
  | c :: rest =>
      if negb (begins_value c) then Raise JSONDecodeError
      else
        let body := rev (skip_space (rev (c :: rest))) in
        if bool_decide (body = py "null") then Ok JNull
        else if bool_decide (body = py "true") then Ok (JBool true)
        else if bool_decide (body = py "false") then Ok (JBool false)
        else if bool_decide (body = py "{}") then Ok (JObj ∅)
        else if bool_decide (body = py "[]") then Ok (JArr [])
        else Raise (OtherError (py "outside the stand-in"))
  end.

Definition sample_dumps (v : json) : str :=
  match v with
  | JNull => py "null"
  | JBool true => py "true"
  | JBool false => py "false"
  | JInt z => str_of_int z
  | JArr [] => py "[]"
  | JObj members => if (size members =? 0)%nat then py "{}" else py "..."
  | _ => py "..."
  end.

(** An uploaded PNG header, an empty upload, and a decoded answer that
    holds two of the nine required keys. *)
Definition png_file : UploadedFile :=
  {| read := [x89; x50; x4e; x47]; type_ := Some (py "image/png") |}.

Definition empty_file : UploadedFile :=
  {| read := []; type_ := Some (py "image/png") |}.

Definition partial_answer : gmap str json :=
  list_to_map [(py "brand_name", JStr (py "STAR BUZZ"));
               (py "flavors_list", JArr [JStr (py "Strazzberry")])].

(** The session after a run whose answer was no JSON. *)
Definition refused_session : session_state :=
  {| last_response_json := Some sample_response;
     last_output_text := Some (py "sorry, I cannot process this") |}.

(** ** Closed forms of what [extract_output_text] collects *)

(** The value of the ["text"] member as the code reads it,
    [content.get("text", "")], whatever its type. *)
Definition raw_text_of (content : json) : json :=
  match field content (py "text") with
  | Some v => v
  | None => JStr []
  end.

Definition item_values (item : json) : list json :=
  if has_type item (py "message") then
    List.map raw_text_of
      (List.filter (fun c => has_type c (py "output_text"))
         (items_of (field item (py "content"))))
  else [].

Definition response_values (response_json : json) : list json :=
  List.flat_map item_values (items_of (field response_json (py "output"))).

Definition is_str (v : json) : bool :=
  match v with JStr _ => true | _ => false end.

(** A body on which no [.get] and no loop fails: an object whose
    ["output"], if present, is a list of objects, the ["content"] of a
    ["message"] item being, if present, a list of objects.  Nothing is
    asked of the ["text"] members. *)
Definition shaped_item (item : json) : bool :=
  is_obj item &&
  (if has_type item (py "message") then
     match field item (py "content") with
     | None => true
     | Some (JArr contents) => forallb is_obj contents
     | Some _ => false
     end
   else true).

Definition shaped_response (response_json : json) : bool :=
  is_obj response_json &&
  match field response_json (py "output") with
  | None => true
  | Some (JArr items) => forallb shaped_item items
  | Some _ => false
  end.

(** ** The rest of the script (app.py, lines 189-272) *)

(** What the script shows besides the widgets of the result display. *)
Inductive page_event : Type :=
| st_subheader (label : str)
| st_image (caption : str)
| st_button (label : str)
| st_error (msg : str)
| st_success (msg : str)
| shown (w : widget).

(** [st.stop()] ends the run of the script; otherwise it goes on. *)
Inductive control : Type :=
| Continue
| Stop.

(** The choice of [st.radio] with the value of the widget behind it. *)
Inductive image_input : Type :=
| UploadFile (uploaded_file : option UploadedFile)
| ImageURL (image_url_input : str).

(** The two slots of [st.session_state] the sidebar reads. *)
Record key_status : Type := {
  api_key_ok : option bool;
  api_key_msg : option str
}.

(** [bool(image_data_url)] *)
Definition has_image (image_data_url : option str) : bool :=
  match image_data_url with
  | Some (_ :: _) => true
  | Some [] | None => false
  end.

Section page.
Variable requests_get : str -> list (str * str) -> outcome.
Variable requests_post : str -> list (str * str) -> json -> outcome.
Variable py_repr : json -> str.
Variable json_loads : str -> result json.
Variable json_dumps : json -> str.
(** [str(exc)] for the built-in exceptions, whose text the model does not
    carry. *)
Variable exc_text : exn -> str.
(** [st.image(data, ...)]: the exception it raises when it cannot render
    [data] ([None] when it renders). *)
Variable image_error : option (list byte) -> option exn.
(** [SYSTEM_PROMPT] and [build_user_prompt()], two constant texts. *)
Variable system_prompt : str.
Variable user_prompt : str.

(** [str(exc)] *)
Definition str_of_exn (e : exn) : str :=
  match e with
  | RuntimeError msg | RequestException msg | OtherError msg => msg
  | AttributeError | TypeError | JSONDecodeError => exc_text e
  end.

(** [update_api_key_status] (lines 189-192): the slots it writes. *)
Definition update_api_key_status (api_key_input : option str) : key_status :=
  let '(valid, msg) :=
    validate_api_key requests_get
      (match api_key_input with Some k => k | None => [] end) in
  {| api_key_ok := Some valid; api_key_msg := Some msg |}.

(** The status line of the sidebar (lines 209-213). *)
Definition sidebar_status (ks : key_status) : list page_event :=
  match api_key_ok ks with
  | None => []
  | Some true =>
      [st_success (match api_key_msg ks with
                   | Some m => m | None => py "API key looks valid" end)]
  | Some false =>
      [st_error (match api_key_msg ks with
                 | Some m => m | None => py "API key check failed" end)]
  end.

(** The input stage (lines 221-236): what is shown, and [image_data_url]
    or the exception that leaves the script. *)
Definition load_image (input : image_input)
  : list page_event * result (option str) :=
  match input with
  | UploadFile None => ([], Ok None)
  | UploadFile (Some f) =>
      match image_error (Some (read f)) with
      | Some e => ([], Raise e)
      | None =>
          ([st_image (py "Uploaded image")], Ok (file_to_data_url (Some f)))
      end
  | ImageURL [] => ([], Ok None)
  | ImageURL (c :: u) =>
      let normalized := normalize_drive_url (c :: u) in
      let '(data, content_type, err) :=
        fetch_image_url requests_get normalized in
      match err with
      | Some (e :: msg) =>
          ([st_error (py "Image preview failed: " ++ e :: msg)], Ok None)
      | Some [] | None =>
          match image_error data with
          | Some e => ([], Raise e)
          | None =>
              match data with
              | None => ([st_image (py "Image URL preview")], Raise TypeError)
              | Some bytes =>
                  let b64 := Base64.b64encode bytes in
                  ([st_image (py "Image URL preview")],
                   Ok (Some (py "data:"
                             ++ match content_type with
                                | Some t => t | None => py "None" end
                             ++ py ";base64," ++ b64)))
              end
          end
      end
  end.

(** The run stage (lines 238-272): what is shown, the session state it
    leaves, and how the script goes on. *)
Definition run_stage (api_key : str) (image_data_url : option str)
    (run_clicked : bool) (st : session_state)
  : list page_event * session_state * result control :=
  if negb (has_image image_data_url) then ([], st, Ok Continue)
  else
    let offer := [st_subheader (py "Output"); st_button (py "Run extraction")] in
    if negb run_clicked then (offer, st, Ok Continue)
    else
      match api_key with
      | [] => (offer ++ [st_error (py "OpenAI API key is required.")], st, Ok Stop)
      | _ :: _ =>
          match system_prompt with
          | [] =>
              (offer ++ [st_error (py "system_prompt is missing or empty.")],
               st, Ok Stop)
          | _ :: _ =>
              match image_data_url with
              | None | Some [] =>
                  (offer ++ [st_error
                               (py "Please provide a valid image before running.")],
                   st, Ok Stop)
              | Some (c :: u) =>
                  match call_openai requests_post py_repr api_key
                          system_prompt user_prompt (c :: u) with
                  | Raise e =>
                      (offer ++ [st_error (py "API call failed: " ++ str_of_exn e)],
                       st, Ok Stop)
                  | Ok response_json =>
                      match extract_output_text response_json with
                      | Raise e => (offer, st, Raise e)
                      | Ok output_text =>
                          (offer,
                           {| last_response_json := Some response_json;
                              last_output_text := Some output_text |},
                           Ok Continue)
                      end
                  end
              end
          end
      end.

(** Lines 215-295: the input stage, the run stage and, unless the script
    was stopped or left by an exception, the result display. *)
Definition page_body (api_key : str) (input : image_input)
    (run_clicked : bool) (st : session_state)
  : list page_event * session_state * result control :=
  let '(ev1, loaded) := load_image input in
  let ev1 := st_subheader (py "Input") :: ev1 in
  match loaded with
  | Raise e => (ev1, st, Raise e)
  | Ok image_data_url =>
      let '(ev2, st', c) := run_stage api_key image_data_url run_clicked st in
      match c with
      | Ok Continue =>
          let '(ws, r) := show_last_result json_loads json_dumps st' in
          (ev1 ++ ev2 ++ List.map shown ws, st',
           match r with Ok _ => Ok Continue | Raise e => Raise e end)
      | _ => (ev1 ++ ev2, st', c)
      end
  end.
End page.

(** The two result slots are written together, and the stored text is
    the text extracted from the stored response. *)
Definition consistent (st : session_state) : Prop :=
  match last_response_json st, last_output_text st with
  | None, None => True
  | Some response_json, Some output_text =>
      extract_output_text response_json = Ok output_text
  | _, _ => False
  end.

(** Stand-ins for the examples: the text of a built-in exception, an
    [st.image] that renders whatever it is given, and one that renders
    nothing. *)
Definition sample_exc_text (e : exn) : str :=
  match e with
  | AttributeError => py "AttributeError"
  | TypeError => py "TypeError"
  | _ => py "Expecting value: line 1 column 1 (char 0)"
  end.

Definition renders_all : option (list byte) -> option exn := fun _ => None.

(** A session that holds the result of an earlier run. *)
Definition earlier_session : session_state :=
  {| last_response_json := Some sample_response;
     last_output_text := Some (py "{" ++ newline ++ py "}") |}.

(** An ok response with the body [sample_response]. *)
Definition answer_resp : Response :=
  sample_resp 200 (py "OK") (py "...") (Some (py "application/json"))
    (Ok sample_response).

(** A body whose message holds the texts ["A"], [null], [0], [""] and
    ["B"], and one whose message holds the text [5]. *)
Definition text_entry (v : json) : json :=
  dict [(py "type", JStr (py "output_text")); (py "text", v)].

Definition mixed_response : json :=
  dict [(py "output",
         JArr [dict [(py "type", JStr (py "message"));
                     (py "content",
                      JArr [text_entry (JStr (py "A")); text_entry JNull;
                            text_entry (JInt 0); text_entry (JStr []);
                            text_entry (JStr (py "B"))])]])].

Definition number_response : json :=
  dict [(py "output",
         JArr [dict [(py "type", JStr (py "message"));
                     (py "content", JArr [text_entry (JInt 5)])]])].

(** The strings among decoded values, in order. *)
Definition strs_only (vs : list json) : list str :=
  List.flat_map (fun v => match v with JStr s => [s] | _ => [] end) vs.

(** A body whose only message holds one empty fragment. *)
Definition silent_response : json :=
  dict [(py "output",
         JArr [dict [(py "type", JStr (py "message"));
                     (py "content", JArr [output_text_entry []])]])].

(** The message and the members of [sample_response]. *)
Definition sample_message : json :=
  dict [(py "type", JStr (py "message"));
        (py "content",
         JArr [output_text_entry (py "{");
               output_text_entry [];
               dict [(py "type", JStr (py "refusal"));
                     (py "text", JStr (py "no"))];
               output_text_entry (py "}")])].

Definition sample_members : gmap str json :=
  list_to_map
    [(py "id", JStr (py "resp_1"));
     (py "output",
      JArr [dict [(py "type", JStr (py "reasoning"))]; sample_message])].

(** The decoded values [in] is defined on: [dict], [list] and [str]. *)
Definition supports_in (v : json) : bool :=
  match v with
  | JObj _ | JArr _ | JStr _ => true
  | _ => false
  end.

(** The download button of the display, by its data. *)
Definition download_json (data : str) : widget :=
  st_download_button (py "Download JSON") data (py "extraction.json")
    (py "application/json").

(** A session whose stored text is the bare number [5], and a decoder and
    an encoder that know that text. *)
Definition number_session : session_state :=
  {| last_response_json := Some sample_response;
     last_output_text := Some (py "5") |}.

Definition five_loads (s : str) : result json :=
  if bool_decide (s = py "5") then Ok (JInt 5) else sample_loads s.

(** A session whose stored text is the empty object. *)
Definition empty_object_session : session_state :=
  {| last_response_json := Some sample_response;
     last_output_text := Some (py "{}") |}.

(** An ok response that carries a PNG header as an image. *)
Definition png_resp : Response :=
  sample_resp 200 (py "OK") [] (Some (py "image/png")) (Raise JSONDecodeError).

Definition sample_url : str := py "https://example.com/a.png".

(** The head of the output stage. *)
Definition offer : list page_event :=
  [st_subheader (py "Output"); st_button (py "Run extraction")].

Definition sample_data_url : str :=
  data_url (py "image/png") (Base64.b64encode [x89; x50; x4e; x47]).

(** The session a successful run leaves. *)
Definition fresh_session (response_json : json) (output_text : str)
  : session_state :=
  {| last_response_json := Some response_json;
     last_output_text := Some output_text |}.


(** An ok response whose body is a JSON list. *)
Definition list_resp : Response :=
  sample_resp 200 (py "OK") (py "[]") (Some (py "application/json"))
    (Ok (JArr [])).

(** A decoded answer that holds the nine required keys. *)
Definition complete_answer : gmap str json :=
  list_to_map
    [(py "flavors_list", JArr [JStr (py "Strazzberry")]);
     (py "multiple_descriptors", JStr (py "0"));
     (py "brand_name", JStr (py "STAR BUZZ"));
     (py "extraction_evidence", JStr (py "Strazzberry"));
     (py "nicotine_content", JStr (py "n/a"));
     (py "size_or_volume", JStr (py "n/a"));
     (py "warning_label_present", JStr (py "No"));
     (py "warning_label_location", JStr (py "n/a"));
     (py "main_color", JArr [JStr (py "red")])].

(** [json.loads] on the texts that consist of opening square brackets
    only.  No such text is a JSON text.  The scanner descends one level
    per bracket and, on a text longer than the recursion limit of the
    interpreter ([sys.getrecursionlimit()], 1000 unless it was raised),
    its recursion guard raises [RecursionError] before the end of the text
    is met; that exception is no [JSONDecodeError].  Every other text is
    left to [sample_loads]. *)
Definition recursion_limit : nat := 1000.

Definition RecursionError : exn :=
  OtherError
    (py "maximum recursion depth exceeded while decoding a JSON array from a unicode string").

Definition nested_loads (s : str) : result json :=
  if forallb (N.eqb 91) s && (recursion_limit <? length s)%nat
  then Raise RecursionError
  else sample_loads s.

(** A session whose stored text is 2000 opening brackets. *)
Definition nested_text : str := repeat 91%N 2000.

Definition nested_session : session_state :=
  {| last_response_json := Some sample_response;
     last_output_text := Some nested_text |}.

(* ===================================================================== *)
(** * Part II: properties                                                 *)
(* ===================================================================== *)

(** ** Facts about the sequence operations *)

Module PySeqFacts.
Import PySeq.
Local Open Scope nat_scope.
Section facts.
Context {A : Type} `{EqDecision A}.
Implicit Types p s sep a b : list A.

Lemma startswith_spec p s :
  startswith p s = true <-> exists t, s = p ++ t.
Proof.
  revert s. induction p as [|x p IH]; intros s; simpl.
  - split; [intros _; by exists s | done].
  - destruct s as [|y s]; simpl.
    + split; [done | intros [t Ht]; discriminate].
    + destruct (decide (x = y)) as [->|Hne].
      * rewrite IH. split; intros [t Ht]; exists t; congruence.
      * split; [done | intros [t Ht]; congruence].
Qed.

Lemma startswith_app p t : startswith p (p ++ t) = true.
Proof. apply startswith_spec. by exists t. Qed.

Lemma endswith_spec p s : endswith p s = true <-> p `suffix_of` s.
Proof.
  unfold endswith. rewrite startswith_spec. split.
  - intros [t Ht]. exists (rev t).
    apply (f_equal (@rev A)) in Ht. by rewrite rev_app_distr, !rev_involutive in Ht.
  - intros [k ->]. exists (rev k). by rewrite rev_app_distr.
Qed.

(** [find] returns the least index at which [p] occurs. *)
Lemma find_Some p s i :
  find p s = Some i <->
  startswith p (drop i s) = true /\
  i <= length s /\
  forall j, j < i -> startswith p (drop j s) = false.
Proof.
  revert i. induction s as [|y s IH]; intros i.
  - simpl. destruct (startswith p []) eqn:E.
    + split.
      * intros [= <-]. rewrite drop_0. repeat split; [done | lia | lia].
      * intros (_ & Hi & _). simpl in Hi. f_equal. lia.
    + split; [done |]. intros (H1 & _ & _).
      rewrite drop_nil in H1. congruence.
  - cbn [find]. destruct (startswith p (y :: s)) eqn:E.
    + split.
      * intros [= <-]. rewrite drop_0. repeat split; [done | lia | lia].
      * intros (_ & _ & Hmin). destruct i as [|i]; [done |].
        specialize (Hmin 0%nat ltac:(lia)). rewrite drop_0 in Hmin. congruence.
    + destruct (find p s) as [k|] eqn:Ek; simpl.
      * split.
        -- intros [= <-]. destruct (proj1 (IH k) eq_refl) as (H1 & H2 & H3).
           repeat split; [done | simpl; lia |].
           intros [|j] Hj; [by rewrite drop_0 | simpl; apply H3; lia].
        -- intros (H1 & H2 & H3). destruct i as [|i].
           ++ rewrite drop_0 in H1. congruence.
           ++ assert (Some k = Some i) as Hc; [| congruence].
              apply IH. simpl in *.
              repeat split; [done | lia |].
              intros j Hj. apply (H3 (S j)). lia.
      * split; [done |]. intros (H1 & H2 & H3). destruct i as [|i].
        -- rewrite drop_0 in H1. congruence.
        -- assert (None = Some i) as Hc; [| congruence].
           apply IH. simpl in *. repeat split; [done | lia |].
           intros j Hj. apply (H3 (S j)). lia.
Qed.

Lemma find_None p s :
  find p s = None <-> forall j, startswith p (drop j s) = false.
Proof.
  induction s as [|y s IH].
  - simpl. destruct (startswith p []) eqn:E.
    + split; [done |]. intros H. specialize (H 0%nat). simpl in H. congruence.
    + split; [| done]. intros _ j. by rewrite drop_nil.
  - cbn [find]. destruct (startswith p (y :: s)) eqn:E.
    + split; [done |]. intros H. specialize (H 0%nat).
      rewrite drop_0 in H. congruence.
    + destruct (find p s) as [k|] eqn:Ek; simpl.
      * split; [done |]. intros H.
        assert (Some k = None) as Hc; [| congruence].
        apply IH. intros j. apply (H (S j)).
      * split; [| done]. intros _ [|j]; [by rewrite drop_0 |].
        simpl. by apply IH.
Qed.

Lemma contains_true p s :
  contains p s = true <-> exists a b, s = a ++ p ++ b.
Proof.
  unfold contains. split.
  - destruct (find p s) as [i|] eqn:E; [intros _ | done].
    apply find_Some in E as (H1 & _ & _).
    apply startswith_spec in H1 as [t Ht].
    exists (take i s), t. by rewrite <- Ht, take_drop.
  - intros (a & b & ->).
    destruct (find p (a ++ p ++ b)) as [i|] eqn:E; [done |].
    exfalso. assert (Hn := proj1 (find_None _ _) E (length a)).
    rewrite drop_app_length in Hn.
    by rewrite startswith_app in Hn.
Qed.

Lemma contains_false p s :
  contains p s = false <-> find p s = None.
Proof. unfold contains. by destruct (find p s). Qed.

Lemma find_nil_r sep : sep <> [] -> find sep [] = None.
Proof. by destruct sep. Qed.

Lemma split_fuel_enough sep s n m :
  sep <> [] -> length s <= n -> length s <= m ->
  split_fuel n sep s = split_fuel m sep s.
Proof.
  intros Hsep. revert s m.
  induction n as [|n IH]; intros s m Hn Hm.
  - destruct s; [| simpl in Hn; lia].
    destruct m; cbn [split_fuel]; [done |]. by rewrite find_nil_r.
  - destruct m as [|m].
    + destruct s; [| simpl in Hm; lia]. cbn [split_fuel]. by rewrite find_nil_r.
    + cbn [split_fuel]. destruct (find sep s) as [i|] eqn:E; [| done].
      f_equal. assert (0 < length sep) by (destruct sep; [done | simpl; lia]).
      apply IH; rewrite length_drop; lia.
Qed.

(** The defining equation of [split]. *)
Lemma split_unfold sep s :
  sep <> [] ->
  split sep s =
    match find sep s with
    | None => [s]
    | Some i => take i s :: split sep (drop (i + length sep) s)
    end.
Proof.
  intros Hsep. unfold split. destruct s as [|y s].
  - cbn [length split_fuel]. by rewrite find_nil_r.
  - cbn [length split_fuel]. destruct (find sep (y :: s)) as [i|] eqn:E; [| done].
    f_equal. assert (0 < length sep) by (destruct sep; [done | simpl; lia]).
    apply split_fuel_enough; [done | | done].
    rewrite length_drop. simpl. lia.
Qed.

Lemma split_no_occurrence sep s :
  sep <> [] -> contains sep s = false -> split sep s = [s].
Proof.
  intros Hsep Hc. rewrite split_unfold by done.
  by rewrite (proj1 (contains_false _ _) Hc).
Qed.

Lemma split_not_nil sep s : split sep s <> [].
Proof. unfold split. destruct (length s); simpl; [done |]. by destruct (find sep s). Qed.

Lemma item_last_cons (x : list A) xs :
  xs <> [] -> item_last (x :: xs) = item_last xs.
Proof. by destruct xs. Qed.

(** The first piece of a split is what stands before the leftmost
    occurrence of the separator. *)
Lemma item_first_split sep s :
  sep <> [] ->
  item_first (split sep s) =
    match find sep s with Some i => take i s | None => s end.
Proof.
  intros Hsep. rewrite split_unfold by done. by destruct (find sep s).
Qed.

Lemma find_singleton_notin (c : A) a b :
  c ∉ a -> find [c] (a ++ [c] ++ b) = Some (length a).
Proof.
  intros Hc. apply find_Some. repeat split.
  - rewrite drop_app_length. apply startswith_app.
  - rewrite length_app. lia.
  - intros j Hj. destruct (startswith [c] (drop j (a ++ [c] ++ b))) eqn:E; [| done].
    exfalso. apply startswith_spec in E as [t Ht].
    apply Hc. apply list_elem_of_lookup. exists j.
    assert ((a ++ [c] ++ b) !! j = Some c) as Hl.
    { rewrite <- (Nat.add_0_r j), <- lookup_drop, Ht. done. }
    by rewrite lookup_app_l in Hl.
Qed.

Lemma contains_singleton (c : A) s : contains [c] s = true <-> c ∈ s.
Proof.
  rewrite contains_true. split.
  - intros (a & b & ->). set_solver.
  - intros (a & b & ->)%list_elem_of_split. by exists a, b.
Qed.

Lemma item_first_split_singleton (c : A) a b :
  contains [c] a = false ->
  item_first (split [c] (a ++ [c] ++ b)) = a.
Proof.
  intros Hc. rewrite item_first_split by done.
  rewrite find_singleton_notin.
  - by rewrite take_app_length.
  - intros Hin. apply contains_singleton in Hin. congruence.
Qed.

Lemma item_first_split_absent sep s :
  sep <> [] -> contains sep s = false -> item_first (split sep s) = s.
Proof. intros Hsep Hc. by rewrite split_no_occurrence. Qed.

Lemma app_eq_cases (d x sep t : list A) :
  d ++ x = sep ++ t ->
  (exists pre2, d = sep ++ pre2) \/
  (exists u, u <> [] /\ sep = d ++ u /\ x = u ++ t).
Proof.
  intros [(k & -> & ->)|(k & -> & ->)]%app_eq_inv.
  - left. by exists k.
  - destruct k as [|c k].
    + left. exists []. by rewrite !app_nil_r.
    + right. by exists (c :: k).
Qed.

(** The last piece of a split is what stands behind an occurrence of the
    separator, when nothing behind it holds the separator and no
    overlapping occurrence begins before it. *)
Lemma item_last_split sep pre rest :
  sep <> [] ->
  contains sep rest = false ->
  (forall k, overlaps_at sep k -> ~ take k sep `suffix_of` pre) ->
  item_last (split sep (pre ++ sep ++ rest)) = rest.
Proof.
  intros Hsep Hrest. remember (length pre) as n eqn:Hn.
  revert pre Hn. induction n as [n IH] using lt_wf_ind. intros pre -> Hov.
  assert (0 < length sep) as Hlen by (destruct sep; [done | simpl; lia]).
  rewrite split_unfold by done.
  destruct (find sep (pre ++ sep ++ rest)) as [i|] eqn:E.
  - apply find_Some in E as (Hi & _ & Hmin).
    assert (i <= length pre) as Hle.
    { destruct (decide (i <= length pre)); [done |].
      specialize (Hmin (length pre) ltac:(lia)).
      rewrite drop_app_length in Hmin. by rewrite startswith_app in Hmin. }
    rewrite item_last_cons by apply split_not_nil.
    destruct (decide (i = length pre)) as [->|Hne].
    + rewrite <- drop_drop, !drop_app_length.
      by rewrite split_no_occurrence.
    + apply startswith_spec in Hi as [t Ht].
      rewrite drop_app_le in Ht by lia.
      assert (pre = take i pre ++ drop i pre) as Hpre by (by rewrite take_drop).
      assert (length (drop i pre) = length pre - i) as Hk by apply length_drop.
      apply app_eq_cases in Ht as [(pre2 & Hd)|(u & Hune & Hsep' & Hu)].
      * (* the occurrence at [i] ends before [length pre] *)
        assert (drop (i + length sep) (pre ++ sep ++ rest)
                = pre2 ++ sep ++ rest) as ->.
        { rewrite <- drop_drop. rewrite drop_app_le by lia.
          rewrite Hd. rewrite <- app_assoc. by rewrite drop_app_length. }
        rewrite Hd in Hpre.
        apply (IH (length pre2)); [| done |].
        -- apply (f_equal length) in Hpre. rewrite !length_app in Hpre. lia.
        -- intros k' Hk' Hsuf. apply (Hov k' Hk').
           rewrite Hpre. destruct Hsuf as [v ->].
           exists (take i pre ++ sep ++ v). by rewrite <- !app_assoc.
      * (* the occurrence at [i] overlaps the one at [length pre] *)
        exfalso. apply (Hov (length pre - i)).
        -- assert (length sep = length (drop i pre) + length u) as Hl
             by (rewrite Hsep' at 1; apply length_app).
           assert (0 < length u) by (destruct u; [done | simpl; lia]).
           split; [lia |].
           rewrite <- Hk. rewrite Hsep' at 1. rewrite drop_app_length.
           assert (length sep - length (drop i pre) = length u) as -> by lia.
           assert (take (length u) (sep ++ rest) = take (length u) (u ++ t))
             as Heq by (by rewrite Hu).
           rewrite take_app_length in Heq. rewrite take_app_le in Heq by lia.
           done.
        -- exists (take i pre). rewrite <- Hk. rewrite Hsep' at 1.
           by rewrite take_app_length.
  - exfalso. assert (Hn := proj1 (find_None _ _) E (length pre)).
    rewrite drop_app_length in Hn. by rewrite startswith_app in Hn.
Qed.
End facts.
End PySeqFacts.

(** ** [normalize_drive_url] *)

Module DriveUrlFacts.
Import PySeq PySeqFacts.
Local Open Scope nat_scope.

Local Abbreviation DRIVE := (py "drive.google.com").
Local Abbreviation ID_EQ := (py "id=").
Local Abbreviation FILE_D := (py "/file/d/").

(** ["id="] does not overlap itself. *)
Lemma id_eq_no_overlap k : ~ overlaps_at ID_EQ k.
Proof.
  intros [Hk Heq]. change (length ID_EQ) with 3 in Hk.
  destruct k as [|[|[|k]]]; try lia; vm_compute in Heq; discriminate.
Qed.

(** ["/file/d/"] overlaps itself only in its final ["/"]. *)
Lemma file_d_overlap k : overlaps_at FILE_D k -> k = 7.
Proof.
  intros [Hk Heq]. change (length FILE_D) with 8 in Hk.
  do 8 (destruct k as [|k]; [first [lia | done | vm_compute in Heq; discriminate] |]).
  lia.
Qed.

(** The query-parameter form. *)
Lemma normalize_query (pre fid suf : str) :
  contains DRIVE (pre ++ ID_EQ ++ fid ++ py "&" ++ suf) = true ->
  contains (py "&") fid = false ->
  contains ID_EQ (fid ++ py "&" ++ suf) = false ->
  normalize_drive_url (pre ++ ID_EQ ++ fid ++ py "&" ++ suf)
  = canonical_drive_url fid.
Proof.
  intros Hdrive Hamp Hrest. unfold normalize_drive_url.
  rewrite Hdrive. cbn [negb].
  assert (contains ID_EQ (pre ++ ID_EQ ++ fid ++ py "&" ++ suf) = true) as ->.
  { apply contains_true. by exists pre, (fid ++ py "&" ++ suf). }
  rewrite item_last_split; [| done | done |].
  - by rewrite (item_first_split_singleton 38%N).
  - intros k Hk. by apply id_eq_no_overlap in Hk.
Qed.

(** The path-segment form. *)
Lemma normalize_path (pre fid suf : str) :
  contains DRIVE (pre ++ FILE_D ++ fid ++ py "/" ++ suf) = true ->
  contains ID_EQ (pre ++ FILE_D ++ fid ++ py "/" ++ suf) = false ->
  contains (py "/") fid = false ->
  contains FILE_D (fid ++ py "/" ++ suf) = false ->
  endswith (py "/file/d") pre = false ->
  normalize_drive_url (pre ++ FILE_D ++ fid ++ py "/" ++ suf)
  = canonical_drive_url fid.
Proof.
  intros Hdrive Hid Hslash Hrest Hpre. unfold normalize_drive_url.
  rewrite Hdrive, Hid. cbn [negb].
  assert (contains FILE_D (pre ++ FILE_D ++ fid ++ py "/" ++ suf) = true) as ->.
  { apply contains_true. by exists pre, (fid ++ py "/" ++ suf). }
  rewrite item_last_split; [| done | done |].
  - by rewrite (item_first_split_singleton 47%N).
  - intros k Hk Hsuf. apply file_d_overlap in Hk as ->.
    apply endswith_spec in Hsuf. change (take 7 FILE_D) with (py "/file/d") in Hsuf.
    congruence.
Qed.

Lemma canonical_contains_drive fid :
  contains DRIVE (canonical_drive_url fid) = true.
Proof.
  apply contains_true.
  exists (py "https://"), (py "/uc?export=download&id=" ++ fid). done.
Qed.

Lemma canonical_contains_id fid :
  contains ID_EQ (canonical_drive_url fid) = true.
Proof.
  apply contains_true.
  exists (py "https://drive.google.com/uc?export=download&"), fid. done.
Qed.

(** The canonical form is a fixed point of the normalizer, for an id
    that holds neither ["&"] nor ["id="]. *)
Lemma normalize_canonical fid :
  contains (py "&") fid = false ->
  contains ID_EQ fid = false ->
  normalize_drive_url (canonical_drive_url fid) = canonical_drive_url fid.
Proof.
  intros Hamp Hid. unfold normalize_drive_url at 1.
  rewrite canonical_contains_drive, canonical_contains_id.
  cbn [negb].
  change (canonical_drive_url fid)
    with (py "https://drive.google.com/uc?export=download&" ++ ID_EQ ++ fid) at 1.
  rewrite item_last_split; [| done | done |].
  - by rewrite item_first_split_absent.
  - intros k Hk. by apply id_eq_no_overlap in Hk.
Qed.

Lemma canonical_inj fid1 fid2 :
  canonical_drive_url fid1 = canonical_drive_url fid2 -> fid1 = fid2.
Proof. unfold canonical_drive_url. apply app_inv_head. Qed.

(** The normalizer returns its argument or a canonical URL. *)
Lemma normalize_cases url :
  normalize_drive_url url = url \/
  exists fid, normalize_drive_url url = canonical_drive_url fid.
Proof.
  unfold normalize_drive_url.
  destruct (contains DRIVE url); cbn [negb]; [| by left].
  destruct (contains ID_EQ url); [right; by eexists |].
  destruct (contains FILE_D url); [right; by eexists | by left].
Qed.
End DriveUrlFacts.

(** C2 (amended): a Drive URL of the path-segment form
    [pre/file/d/<id>/suf] and a Drive URL of the query-parameter form
    [pre?id=<id>&suf] are both rewritten to the canonical
    [https://drive.google.com/uc?export=download&id=<id>], provided that
    [<id>] holds neither ["/"] nor ["&"]; that the path-form URL holds no
    ["id="], no ["/file/d/"] behind the one in front of [<id>], and no
    ["/file/d"] right in front of it; and that the query-form URL holds no
    ["id="] behind the one in front of [<id>]. *)
Theorem normalize_drive_url_forms_agree (fid pre_p suf_p pre_q suf_q : str) :
  PySeq.contains (py "drive.google.com")
    (pre_p ++ py "/file/d/" ++ fid ++ py "/" ++ suf_p) = true ->
  PySeq.contains (py "id=")
    (pre_p ++ py "/file/d/" ++ fid ++ py "/" ++ suf_p) = false ->
  PySeq.contains (py "/file/d/") (fid ++ py "/" ++ suf_p) = false ->
  PySeq.endswith (py "/file/d") pre_p = false ->
  PySeq.contains (py "/") fid = false ->
  PySeq.contains (py "drive.google.com")
    (pre_q ++ py "?id=" ++ fid ++ py "&" ++ suf_q) = true ->
  PySeq.contains (py "id=") (fid ++ py "&" ++ suf_q) = false ->
  PySeq.contains (py "&") fid = false ->
  normalize_drive_url (pre_p ++ py "/file/d/" ++ fid ++ py "/" ++ suf_p)
  = canonical_drive_url fid /\
  normalize_drive_url (pre_q ++ py "?id=" ++ fid ++ py "&" ++ suf_q)
  = canonical_drive_url fid.
Proof.
  intros Hd1 Hid1 Hrest1 Hpre1 Hslash Hd2 Hrest2 Hamp. split.
  - by apply DriveUrlFacts.normalize_path.
  - assert (pre_q ++ py "?id=" ++ fid ++ py "&" ++ suf_q
            = (pre_q ++ py "?") ++ py "id=" ++ fid ++ py "&" ++ suf_q) as Heq
      by (by rewrite <- app_assoc).
    rewrite Heq in *. by apply DriveUrlFacts.normalize_query.
Qed.

Lemma normalize_drive_url_forms_agree_witness :
  normalize_drive_url (py "https://drive.google.com/file/d/1AbC_d-9/view?usp=sharing")
  = canonical_drive_url (py "1AbC_d-9") /\
  normalize_drive_url (py "https://drive.google.com/open?id=1AbC_d-9&usp=drive_fs")
  = canonical_drive_url (py "1AbC_d-9").
Proof.
  exact (normalize_drive_url_forms_agree
           (py "1AbC_d-9")
           (py "https://drive.google.com") (py "view?usp=sharing")
           (py "https://drive.google.com/open") (py "usp=drive_fs")
           eq_refl eq_refl eq_refl eq_refl eq_refl eq_refl eq_refl eq_refl).
Defined.

(** C2 (as stated) fails: the URL below is a Drive URL that holds
    ["/file/d/ABC/"], yet its query string holds ["id="] (in [ouid=7]), so
    the normalizer takes the id from there and returns the canonical URL of
    ["7"], not the one of ["ABC"] that the query-parameter form yields. *)
Lemma normalize_drive_url_forms_differ :
  PySeq.contains (py "drive.google.com")
    (py "https://drive.google.com/file/d/ABC/view?ouid=7") = true /\
  PySeq.contains (py "/file/d/" ++ py "ABC" ++ py "/")
    (py "https://drive.google.com/file/d/ABC/view?ouid=7") = true /\
  PySeq.contains (py "drive.google.com")
    (py "https://drive.google.com/open?id=ABC&usp=drive_fs") = true /\
  PySeq.contains (py "?id=" ++ py "ABC" ++ py "&")
    (py "https://drive.google.com/open?id=ABC&usp=drive_fs") = true /\
  normalize_drive_url (py "https://drive.google.com/open?id=ABC&usp=drive_fs")
  = canonical_drive_url (py "ABC") /\
  normalize_drive_url (py "https://drive.google.com/file/d/ABC/view?ouid=7")
  = canonical_drive_url (py "7") /\
  normalize_drive_url (py "https://drive.google.com/file/d/ABC/view?ouid=7")
  <> canonical_drive_url (py "ABC").
Proof.
  repeat split; try (vm_compute; reflexivity).
  intros H. vm_compute in H. discriminate.
Qed.

(** ** [extract_output_text] *)

Module ExtractFacts.

Lemma bind_Ok {T U : Type} (v : T) (k : T -> result U) :
  mbind k (Ok v) = k v.
Proof. reflexivity. Qed.

Lemma strs_of_strs (l : list str) : strs_of (List.map JStr l) = Ok l.
Proof. induction l as [|x l IH]; simpl; [done |]. by rewrite IH. Qed.

Lemma filter_truthy_strs (l : list str) :
  List.filter truthy (List.map JStr l) = List.map JStr (List.filter nonempty l).
Proof.
  induction l as [|x l IH]; simpl; [done |].
  destruct x; simpl; by rewrite IH.
Qed.

Lemma collect_content_cons m rest texts :
  collect_content (JObj m :: rest) texts =
    if eq_str (match m !! py "type" with Some x => x | None => JNull end)
         (py "output_text")
    then collect_content rest
           (texts ++ [match m !! py "text" with Some x => x | None => JStr [] end])
    else collect_content rest texts.
Proof. reflexivity. Qed.

Lemma collect_output_cons m rest texts :
  collect_output (JObj m :: rest) texts =
    if negb (eq_str (match m !! py "type" with Some x => x | None => JNull end)
               (py "message"))
    then collect_output rest texts
    else
      contents ← py_iter (match m !! py "content" with
                          | Some x => x | None => JArr [] end);
      texts' ← collect_content contents texts;
      collect_output rest texts'.
Proof. reflexivity. Qed.

Lemma collect_content_wf contents texts :
  forallb wf_content contents = true ->
  collect_content contents texts =
    Ok (texts ++ List.map JStr
                   (List.map text_of
                      (List.filter (fun c => has_type c (py "output_text"))
                         contents))).
Proof.
  revert texts. induction contents as [|c contents IH]; intros texts Hwf.
  - simpl. by rewrite app_nil_r.
  - cbn [forallb] in Hwf. apply andb_prop in Hwf as [Hc Hrest].
    unfold wf_content in Hc. apply andb_prop in Hc as [Hobj Htext].
    destruct c as [| | | | | |m]; try discriminate.
    rewrite collect_content_cons. cbn [List.filter].
    unfold has_type at 1. unfold has_type at 1 in Htext. cbn [field] in *.
    destruct (m !! py "type") as [ty|] eqn:Ety.
    + destruct (eq_str ty (py "output_text")) eqn:Eq.
      * cbn [List.map]. unfold text_of at 1. cbn [field].
        destruct (m !! py "text") as [t|] eqn:Et.
        -- destruct t; try discriminate.
           rewrite IH by done. by rewrite <- app_assoc.
        -- rewrite IH by done. by rewrite <- app_assoc.
      * by apply IH.
    + change (eq_str JNull (py "output_text")) with false. cbn iota.
      by apply IH.
Qed.

Lemma collect_output_wf items texts :
  forallb wf_item items = true ->
  collect_output items texts =
    Ok (texts ++ List.map JStr (List.flat_map spec_item_fragments items)).
Proof.
  revert texts. induction items as [|item items IH]; intros texts Hwf.
  - simpl. by rewrite app_nil_r.
  - cbn [forallb] in Hwf. apply andb_prop in Hwf as [Hi Hrest].
    unfold wf_item in Hi. apply andb_prop in Hi as [Hobj Hcontent].
    destruct item as [| | | | | |m]; try discriminate.
    rewrite collect_output_cons. cbn [List.flat_map].
    rewrite List.map_app.
    unfold spec_item_fragments at 1. unfold has_type in *. cbn [field] in *.
    destruct (m !! py "type") as [ty|] eqn:Ety.
    + destruct (eq_str ty (py "message")) eqn:Eq; cbn [negb].
      * destruct (m !! py "content") as [c|] eqn:Ec.
        -- destruct c; try discriminate. cbn [py_iter items_of].
           rewrite bind_Ok.
           rewrite collect_content_wf by done.
           rewrite bind_Ok.
           rewrite IH by done. by rewrite <- app_assoc.
        -- cbn [py_iter items_of List.filter List.map].
           rewrite bind_Ok.
           cbn [collect_content].
           rewrite bind_Ok.
           by rewrite IH.
      * rewrite IH by done. done.
    + change (eq_str JNull (py "message")) with false. cbn [negb].
      rewrite IH by done. done.
Qed.

Lemma filter_all {T : Type} (f : T -> bool) (l : list T) :
  forallb f l = true -> List.filter f l = l.
Proof.
  induction l as [|x l IH]; simpl; [done |].
  intros [Hx Hl]%andb_prop. rewrite Hx. by rewrite IH.
Qed.
End ExtractFacts.

(** C1 (amended): for every response body of the documented shape,
    [extract_output_text] returns the newline-joined concatenation, in list
    order, of the NON-EMPTY ["text"] members of the ["output_text"] entries
    of the ["message"] items; entries and items of other types contribute
    nothing, and neither does an empty fragment.  When no fragment is
    empty, this is the output text of the specification. *)
Theorem extract_output_text_joins_nonempty (response_json : json) :
  wf_response response_json = true ->
  extract_output_text response_json
  = Ok (PySeq.join newline (List.filter nonempty (spec_fragments response_json)))
  /\ (forallb nonempty (spec_fragments response_json) = true ->
      extract_output_text response_json = Ok (spec_output_text response_json)).
Proof.
  intros Hwf.
  assert (extract_output_text response_json
          = Ok (PySeq.join newline
                  (List.filter nonempty (spec_fragments response_json)))) as Hcode.
  { unfold wf_response in Hwf. apply andb_prop in Hwf as [Hobj Hout].
    destruct response_json as [| | | | | |m]; try discriminate.
    unfold extract_output_text, spec_fragments. cbn [py_get field] in *.
    rewrite ExtractFacts.bind_Ok.
    destruct (m !! py "output") as [o|] eqn:Eo.
    - destruct o; try discriminate. cbn [py_iter items_of].
      rewrite ExtractFacts.bind_Ok.
      rewrite ExtractFacts.collect_output_wf by done.
      rewrite ExtractFacts.bind_Ok.
      unfold str_join.
      rewrite app_nil_l, ExtractFacts.filter_truthy_strs, ExtractFacts.strs_of_strs.
      done.
    - reflexivity. }
  split; [done |].
  intros Hne. rewrite Hcode. unfold spec_output_text.
  by rewrite ExtractFacts.filter_all.
Qed.

Lemma extract_output_text_joins_nonempty_witness :
  extract_output_text sample_response = Ok (py "{" ++ newline ++ py "}").
Proof.
  exact (proj1 (extract_output_text_joins_nonempty sample_response eq_refl)).
Defined.

(** C1 (as stated) fails: the message of [sample_response] holds the
    fragments ["{"], [""] and ["}"]; their newline-joined concatenation has
    two newlines, the text the code returns has one. *)
Lemma extract_output_text_drops_empty :
  wf_response sample_response = true /\
  spec_fragments sample_response = [py "{"; []; py "}"] /\
  spec_output_text sample_response = py "{" ++ newline ++ newline ++ py "}" /\
  extract_output_text sample_response = Ok (py "{" ++ newline ++ py "}") /\
  extract_output_text sample_response <> Ok (spec_output_text sample_response).
Proof.
  repeat split; try (vm_compute; reflexivity).
  intros H. vm_compute in H. discriminate.
Qed.

(** ** [base64.b64encode] and [file_to_data_url] *)

Module Base64Facts.
Import Base64.
Local Open Scope N_scope.

Ltac euclid := zify; Z.to_euclidean_division_equations; lia.

Lemma sextet_char s :
  s < 64 -> sextet_of (char_of s) = Some s /\ (char_of s =? pad) = false.
Proof.
  intros Hs. unfold char_of, sextet_of, pad.
  destruct (N.ltb_spec s 26).
  { replace (65 <=? 65 + s) with true by (symmetry; apply N.leb_le; lia).
    replace (65 + s <=? 90) with true by (symmetry; apply N.leb_le; lia).
    split; [cbn [andb]; f_equal; lia | apply N.eqb_neq; lia]. }
  destruct (N.ltb_spec s 52).
  { replace (65 <=? 97 + (s - 26)) with true by (symmetry; apply N.leb_le; lia).
    replace (97 + (s - 26) <=? 90) with false by (symmetry; apply N.leb_gt; lia).
    replace (97 <=? 97 + (s - 26)) with true by (symmetry; apply N.leb_le; lia).
    replace (97 + (s - 26) <=? 122) with true by (symmetry; apply N.leb_le; lia).
    split; [cbn [andb]; f_equal; lia | apply N.eqb_neq; lia]. }
  destruct (N.ltb_spec s 62).
  { replace (65 <=? 48 + (s - 52)) with false by (symmetry; apply N.leb_gt; lia).
    replace (97 <=? 48 + (s - 52)) with false by (symmetry; apply N.leb_gt; lia).
    replace (48 <=? 48 + (s - 52)) with true by (symmetry; apply N.leb_le; lia).
    replace (48 + (s - 52) <=? 57) with true by (symmetry; apply N.leb_le; lia).
    split; [cbn [andb]; f_equal; lia | apply N.eqb_neq; lia]. }
  destruct (N.eqb_spec s 62) as [->|Hne].
  { split; reflexivity. }
  assert (s = 63) as -> by lia. split; reflexivity.
Qed.

Lemma to_N_lt b : Byte.to_N b < 256.
Proof. pose proof (Byte.to_N_bounded b). lia. Qed.

(** Decoding one group of four characters. *)
Lemma b64decode_quad s1 s2 s3 s4 rest :
  s1 < 64 -> s2 < 64 -> s3 < 64 -> s4 < 64 ->
  b64decode (char_of s1 :: char_of s2 :: char_of s3 :: char_of s4 :: rest) =
    x1 ← byte_of (s1 * 4 + s2 / 16);
    x2 ← byte_of (s2 mod 16 * 16 + s3 / 4);
    x3 ← byte_of (s3 mod 4 * 64 + s4);
    tl ← b64decode rest;
    Some (x1 :: x2 :: x3 :: tl).
Proof.
  intros H1 H2 H3 H4. cbn [b64decode].
  destruct (sextet_char s1 H1) as [-> _], (sextet_char s2 H2) as [-> _].
  destruct (sextet_char s3 H3) as [-> ->], (sextet_char s4 H4) as [-> ->].
  reflexivity.
Qed.

Lemma b64decode_pad1 s1 s2 s3 :
  s1 < 64 -> s2 < 64 -> s3 < 64 ->
  b64decode [char_of s1; char_of s2; char_of s3; pad] =
    x1 ← byte_of (s1 * 4 + s2 / 16);
    x2 ← byte_of (s2 mod 16 * 16 + s3 / 4);
    Some [x1; x2].
Proof.
  intros H1 H2 H3. cbn [b64decode].
  destruct (sextet_char s1 H1) as [-> _], (sextet_char s2 H2) as [-> _].
  destruct (sextet_char s3 H3) as [-> ->].
  reflexivity.
Qed.

Lemma b64decode_pad2 s1 s2 :
  s1 < 64 -> s2 < 64 ->
  b64decode [char_of s1; char_of s2; pad; pad] =
    x1 ← byte_of (s1 * 4 + s2 / 16); Some [x1].
Proof.
  intros H1 H2. cbn [b64decode].
  destruct (sextet_char s1 H1) as [-> _], (sextet_char s2 H2) as [-> _].
  reflexivity.
Qed.

(** Regrouping 3 x 8 bits as 4 x 6 bits and back. *)
Lemma regroup1 n1 n2 : n1 < 256 -> n2 < 256 ->
  n1 / 4 * 4 + (n1 mod 4 * 16 + n2 / 16) / 16 = n1.
Proof. intros. euclid. Qed.

Lemma regroup2 n1 n2 n3 : n1 < 256 -> n2 < 256 -> n3 < 256 ->
  (n1 mod 4 * 16 + n2 / 16) mod 16 * 16 + (n2 mod 16 * 4 + n3 / 64) / 4 = n2.
Proof. intros. euclid. Qed.

Lemma regroup3 n2 n3 : n2 < 256 -> n3 < 256 ->
  (n2 mod 16 * 4 + n3 / 64) mod 4 * 64 + n3 mod 64 = n3.
Proof. intros. euclid. Qed.

Lemma regroup1_pad n1 : n1 < 256 -> n1 / 4 * 4 + n1 mod 4 * 16 / 16 = n1.
Proof. intros. euclid. Qed.

Lemma regroup2_pad n1 n2 : n1 < 256 -> n2 < 256 ->
  (n1 mod 4 * 16 + n2 / 16) mod 16 * 16 + n2 mod 16 * 4 / 4 = n2.
Proof. intros. euclid. Qed.

(** Decoding inverts encoding. *)
Lemma b64decode_b64encode data : b64decode (b64encode data) = Some data.
Proof.
  remember (length data) as n eqn:Hn. revert data Hn.
  induction n as [n IH] using lt_wf_ind. intros data ->.
  destruct data as [|b1 [|b2 [|b3 rest]]]; cbn [b64encode].
  - reflexivity.
  - pose proof (to_N_lt b1).
    rewrite b64decode_pad2 by euclid.
    rewrite regroup1_pad by done. unfold byte_of.
    by rewrite Byte.of_to_N.
  - pose proof (to_N_lt b1). pose proof (to_N_lt b2).
    rewrite b64decode_pad1 by euclid.
    rewrite regroup1, regroup2_pad by done. unfold byte_of.
    by rewrite !Byte.of_to_N.
  - pose proof (to_N_lt b1). pose proof (to_N_lt b2). pose proof (to_N_lt b3).
    rewrite b64decode_quad by euclid.
    rewrite regroup1, regroup2, regroup3 by done. unfold byte_of.
    rewrite !Byte.of_to_N.
    rewrite (IH (length rest)); [reflexivity | simpl; lia | reflexivity].
Qed.

Lemma b64encode_nil data : b64encode data = [] <-> data = [].
Proof.
  split; [| by intros ->].
  by destruct data as [|b1 [|b2 [|b3 rest]]].
Qed.
End Base64Facts.

(** C7: [file_to_data_url] returns [None] exactly when the file is absent
    or [read()] yields no byte; otherwise it returns the data URL
    [data:<mime>;base64,<payload>], with [<mime>] the declared media type,
    or [application/octet-stream] when none (or an empty one) is declared,
    and with a payload that is the base64 text of the bytes read: it
    decodes (RFC 4648) to exactly those bytes.  So the payload of a
    returned URL never encodes zero bytes. *)
Theorem file_to_data_url_spec (uploaded_file : option UploadedFile) :
  (file_to_data_url uploaded_file = None <->
   uploaded_file = None \/ exists f, uploaded_file = Some f /\ read f = []) /\
  (forall f, uploaded_file = Some f -> read f <> [] ->
     exists mime payload,
       file_to_data_url uploaded_file
       = Some (py "data:" ++ mime ++ py ";base64," ++ payload) /\
       payload = Base64.b64encode (read f) /\
       Base64.b64decode payload = Some (read f) /\
       (forall t, type_ f = Some t -> t <> [] -> mime = t) /\
       (type_ f = None \/ type_ f = Some [] ->
        mime = py "application/octet-stream")) /\
  (forall url, file_to_data_url uploaded_file = Some url ->
     exists f mime payload,
       uploaded_file = Some f /\
       url = py "data:" ++ mime ++ py ";base64," ++ payload /\
       Base64.b64decode payload = Some (read f) /\
       read f <> [] /\ payload <> []).
Proof.
  destruct uploaded_file as [f|]; cbn [file_to_data_url].
  2:{ split; [| split].
      - split; [by left | done].
      - intros f [=].
      - intros url [=]. }
  destruct f as [data ty]. cbn [read type_].
  destruct data as [|b data].
  { split; [| split].
    - split; [| done]. intros _. right. by eexists.
    - intros g [= <-] Hne. done.
    - intros url [=]. }
  set (bytes := b :: data).
  split; [| split].
  - split; [done |]. intros [|(g & [= <-] & Hg)]; done.
  - intros g [= <-] _. cbn [read type_].
    eexists _, (Base64.b64encode bytes). split; [reflexivity |].
    split; [reflexivity |].
    split; [apply Base64Facts.b64decode_b64encode |].
    split.
    + intros t -> Ht. by destruct t.
    + intros [->| ->]; reflexivity.
  - intros url Hurl. apply (inj Some) in Hurl. subst url.
    eexists {| read := bytes; type_ := ty |}, _, (Base64.b64encode bytes).
    split; [reflexivity |]. split; [reflexivity |]. cbn [read].
    split; [apply Base64Facts.b64decode_b64encode |].
    split; [done |]. intros H. by apply Base64Facts.b64encode_nil in H.
Qed.

Lemma file_to_data_url_spec_witness :
  file_to_data_url (Some empty_file) = None /\
  file_to_data_url (Some png_file)
  = Some (py "data:image/png;base64,iVBORw==") /\
  Base64.b64decode (py "iVBORw==") = Some [x89; x50; x4e; x47].
Proof.
  split.
  - apply (proj1 (file_to_data_url_spec (Some empty_file))).
    right. by exists empty_file.
  - destruct (proj1 (proj2 (file_to_data_url_spec (Some png_file)))
                png_file eq_refl ltac:(discriminate))
      as (mime & payload & Hurl & Hpayload & Hdecode & Hmime & _).
    rewrite (Hmime (py "image/png") eq_refl ltac:(discriminate)) in Hurl.
    subst payload. split; [exact Hurl | exact Hdecode].
Defined.

(** ** The missing-keys check *)

Module MissingFacts.

Lemma missing_of_obj fields members :
  missing_of fields (JObj members)
  = Ok (List.filter (absent_in members) fields).
Proof.
  induction fields as [|k fields IH]; [reflexivity |].
  cbn [missing_of py_in List.filter]. rewrite ExtractFacts.bind_Ok, IH.
  rewrite ExtractFacts.bind_Ok. unfold absent_in.
  by destruct (members !! k).
Qed.
End MissingFacts.

(** C3: on a decoded JSON object the missing-keys check raises nothing and
    reports exactly the keys among [flavors_list], [multiple_descriptors],
    [brand_name], [extraction_evidence], [nicotine_content],
    [size_or_volume], [warning_label_present], [warning_label_location]
    and [main_color] that the object does not hold, in that order: each of
    the nine is reported if and only if it is not a key of the object, and
    nothing else is reported. *)
Theorem missing_reports_exactly_absent_keys (members : gmap str json) :
  let nine : list str :=
    [py "flavors_list"; py "multiple_descriptors"; py "brand_name";
     py "extraction_evidence"; py "nicotine_content"; py "size_or_volume";
     py "warning_label_present"; py "warning_label_location";
     py "main_color"] in
  exists absent,
    missing (JObj members) = Ok absent /\
    absent = List.filter (fun k => bool_decide (members !! k = None)) nine /\
    (forall k : str, k ∈ absent <-> k ∈ nine /\ members !! k = None) /\
    (forall k : str, k ∈ nine ->
       (k ∈ absent <-> members !! k = None) /\
       (k ∉ absent <-> is_Some (members !! k))).
Proof.
  intros nine.
  exists (List.filter (fun k => bool_decide (members !! k = None)) nine).
  assert (forall k : str,
             k ∈ List.filter (fun k => bool_decide (members !! k = None)) nine
             <-> k ∈ nine /\ members !! k = None) as Hiff.
  { intros k. rewrite !list_elem_of_In, List.filter_In.
    by rewrite bool_decide_eq_true. }
  split.
  { unfold missing. rewrite MissingFacts.missing_of_obj.
    change required_fields with nine. f_equal.
    apply List.filter_ext. intros k. unfold absent_in.
    by destruct (members !! k). }
  split; [reflexivity |]. split; [exact Hiff |].
  intros k Hk. rewrite Hiff. split; [split; [by intros [? ?] | done] |].
  destruct (members !! k) eqn:E.
  - split; [intros _; by eexists | intros _ [_ ?]; done].
  - split; [intros Hn; exfalso; by apply Hn | intros [? ?]; done].
Qed.

Lemma missing_reports_exactly_absent_keys_witness :
  exists absent,
    missing (JObj partial_answer) = Ok absent /\
    absent = [py "multiple_descriptors"; py "extraction_evidence";
              py "nicotine_content"; py "size_or_volume";
              py "warning_label_present"; py "warning_label_location";
              py "main_color"] /\
    py "main_color" ∈ absent /\
    py "brand_name" ∉ absent.
Proof.
  destruct (missing_reports_exactly_absent_keys partial_answer)
    as (absent & Hmissing & Heq & Hiff & _).
  exists absent. split; [exact Hmissing |]. split; [exact Heq |]. split.
  - apply Hiff. split; [| reflexivity].
    apply list_elem_of_In. do 8 right. left. reflexivity.
  - intros Hin. apply Hiff in Hin as [_ Hnone]. discriminate Hnone.
Defined.

(** ** The HTTP helpers *)

Module HttpFacts.

(** A text that begins with a character is not empty. *)
Lemma text_not_nil (c : N) (s t u : str) :
  s = c :: t -> s ++ u <> [].
Proof. by intros ->. Qed.

(** [resp.ok] by the status code. *)
Lemma ok_true resp :
  ok resp = true <-> status_code resp < 400 \/ 600 <= status_code resp.
Proof. unfold ok. lia. Qed.

Lemma ok_false resp :
  ok resp = false <-> 400 <= status_code resp < 600.
Proof. unfold ok. lia. Qed.

Lemma ok_2xx resp : 200 <= status_code resp < 300 -> ok resp = true.
Proof. intros H. apply ok_true. lia. Qed.

Lemma http_status_line_not_nil resp : http_status_line resp <> [].
Proof. done. Qed.

Lemma http_status_line_not_invalid resp :
  http_status_line resp <> py "Invalid API key".
Proof. done. Qed.
End HttpFacts.

(** C6 (amended): when the credential check issues its GET (the key is
    not empty), [validate_api_key] reports the key as valid on every
    response that is ok, that is on every status below 400 or above 599,
    and so on every 2xx response; reports ["Invalid API key"] exactly when
    the status is 401; reports the status line ["HTTP <status> <reason>"]
    for every other status from 400 to 599; and reports the text of the
    exception when the request raises. *)
Theorem validate_api_key_outcomes
    (requests_get : str -> list (str * str) -> outcome) (api_key : str) :
  api_key <> [] ->
  match requests_get (OPENAI_API_BASE ++ py "/models") (bearer api_key) with
  | Responded resp =>
      (status_code resp < 400 \/ 600 <= status_code resp ->
       validate_api_key requests_get api_key = (true, py "API key looks valid")) /\
      (200 <= status_code resp < 300 ->
       validate_api_key requests_get api_key = (true, py "API key looks valid")) /\
      (validate_api_key requests_get api_key = (false, py "Invalid API key")
       <-> status_code resp = 401) /\
      (400 <= status_code resp < 600 -> status_code resp <> 401 ->
       validate_api_key requests_get api_key
       = (false,
          py "HTTP " ++ str_of_int (status_code resp) ++ py " " ++ reason resp))
  | Failed msg => validate_api_key requests_get api_key = (false, msg)
  end.
Proof.
  intros Hkey. unfold validate_api_key.
  destruct api_key as [|c key]; [done |].
  destruct (requests_get _ _) as [resp|msg]; [| reflexivity].
  split; [| split; [| split]].
  - intros Hok. apply HttpFacts.ok_true in Hok. by rewrite Hok.
  - intros H2xx. by rewrite HttpFacts.ok_2xx.
  - destruct (ok resp) eqn:Hok.
    + split; [done |]. intros H401. apply HttpFacts.ok_true in Hok. lia.
    + destruct (Z.eqb_spec (status_code resp) 401) as [H401|Hne].
      * done.
      * split; [| done]. intros Hline. exfalso.
        apply (f_equal snd) in Hline.
        by apply HttpFacts.http_status_line_not_invalid in Hline.
  - intros Hrange Hne. apply HttpFacts.ok_false in Hrange. rewrite Hrange.
    by destruct (Z.eqb_spec (status_code resp) 401).
Qed.

Lemma validate_api_key_outcomes_witness :
  validate_api_key
    (always (Responded (sample_resp 401 (py "Unauthorized") [] None
                          (Raise JSONDecodeError))))
    (py "sk-test")
  = (false, py "Invalid API key")
  /\
  validate_api_key
    (always (Responded (sample_resp 429 (py "Too Many Requests") [] None
                          (Raise JSONDecodeError))))
    (py "sk-test")
  = (false, py "HTTP 429 Too Many Requests")
  /\
  validate_api_key (always (Failed (py "Connection refused"))) (py "sk-test")
  = (false, py "Connection refused").
Proof.
  split; [| split].
  - apply (validate_api_key_outcomes
             (always (Responded (sample_resp 401 (py "Unauthorized") [] None
                                   (Raise JSONDecodeError))))
             (py "sk-test") ltac:(discriminate)).
    reflexivity.
  - apply (validate_api_key_outcomes
             (always (Responded (sample_resp 429 (py "Too Many Requests") [] None
                                   (Raise JSONDecodeError))))
             (py "sk-test") ltac:(discriminate)).
    + cbn. lia.
    + discriminate.
  - exact (validate_api_key_outcomes
             (always (Failed (py "Connection refused")))
             (py "sk-test") ltac:(discriminate)).
Defined.

(** C6 (as stated) fails: 304 is no 2xx status and is not 401, but
    [requests] reports a 304 response as ok, so the key is reported as
    valid and the status is not reported. *)
Lemma validate_api_key_valid_on_304 :
  (304 < 200 \/ 300 <= 304) /\
  304 <> 401 /\
  (validate_api_key
     (always (Responded (sample_resp 304 (py "Not Modified") [] None
                           (Raise JSONDecodeError))))
     (py "sk-test")
   = (true, py "API key looks valid")) /\
  (validate_api_key
     (always (Responded (sample_resp 304 (py "Not Modified") [] None
                           (Raise JSONDecodeError))))
     (py "sk-test")
   <> (false, py "HTTP 304 Not Modified")).
Proof. split; [lia |]. split; [lia |]. split; [reflexivity | discriminate]. Qed.

(** C4: for every URL and every outcome of the GET (an ok response whose
    Content-Type starts with ["image/"], a response that is not ok, an ok
    response with another Content-Type or none, a raised transport
    exception), [fetch_image_url] returns one of two shapes: the bytes and
    the content type, both present, with no error; or no bytes, no content
    type and an error message that is not empty.  The first shape is
    returned exactly for an ok response whose Content-Type starts with
    ["image/"], and holds the content and the Content-Type of that
    response.  A response that is not ok yields the message
    ["HTTP <status> <reason>"], an ok response without an image
    Content-Type the message ["URL did not return an image (Content-Type:
    <type>)"], a raised exception its text.  The hypothesis is what makes
    the raised exception a transport exception of [requests]: those carry
    the text of their cause, which is not empty. *)
Theorem fetch_image_url_shapes
    (requests_get : str -> list (str * str) -> outcome) (url : str) :
  (forall msg, requests_get url [] = Failed msg -> msg <> []) ->
  ((exists data ctype,
       fetch_image_url requests_get url = (Some data, Some ctype, None)) \/
   (exists msg,
       msg <> [] /\
       fetch_image_url requests_get url = (None, None, Some msg))) /\
  (forall data ctype err,
      fetch_image_url requests_get url = (data, ctype, err) ->
      (is_Some data <-> err = None) /\ (is_Some ctype <-> err = None)) /\
  (forall resp ctype,
      requests_get url [] = Responded resp -> ok resp = true ->
      content_type_header resp = Some ctype ->
      PySeq.startswith (py "image/") ctype = true ->
      fetch_image_url requests_get url
      = (Some (content resp), Some ctype, None)) /\
  (forall data ctype,
      fetch_image_url requests_get url = (Some data, Some ctype, None) ->
      exists resp,
        requests_get url [] = Responded resp /\ ok resp = true /\
        content_type_header resp = Some ctype /\
        PySeq.startswith (py "image/") ctype = true /\
        data = content resp) /\
  (forall resp,
      requests_get url [] = Responded resp -> ok resp = false ->
      fetch_image_url requests_get url
      = (None, None, Some (http_status_line resp))) /\
  (forall resp,
      requests_get url [] = Responded resp -> ok resp = true ->
      PySeq.startswith (py "image/")
        (match content_type_header resp with Some t => t | None => [] end)
      = false ->
      fetch_image_url requests_get url
      = (None, None,
         Some (py "URL did not return an image (Content-Type: "
               ++ match content_type_header resp with
                  | Some t => t | None => [] end
               ++ py ")"))) /\
  (forall msg,
      requests_get url [] = Failed msg ->
      fetch_image_url requests_get url = (None, None, Some msg)).
Proof.
  intros Htext. unfold fetch_image_url.
  assert (forall (T : Type) (data : option T) (e : option str),
             (data = None /\ exists m, e = Some m) \/
             ((exists d, data = Some d) /\ e = None) ->
             is_Some data <-> e = None) as Hshape.
  { intros T data e [[-> [m ->]]|[[d ->] ->]]; split; by try intros [? ?]. }
  destruct (requests_get url []) as [resp|msg].
  2:{ specialize (Htext msg eq_refl).
      split; [right; by exists msg |].
      split.
      { intros data ctype err [= <- <- <-].
        split; apply Hshape; left; eauto. }
      repeat split; intros; by simplify_eq. }
  clear Htext.
  destruct (ok resp) eqn:Hok; cbn [negb].
  - destruct (content_type_header resp) as [ctype|] eqn:Hct.
    + destruct (PySeq.startswith (py "image/") ctype) eqn:Himg; cbn [negb].
      * split; [left; by eexists _, _ |].
        split.
        { intros data c err [= <- <- <-].
          split; apply Hshape; right; eauto. }
        split; [intros; simplify_eq; congruence |].
        split; [intros data c [= <- <-]; by exists resp |].
        repeat split; intros; simplify_eq; rewrite ?Hct in *; congruence.
      * split.
        { right. eexists. split; [| done].
          intros H. by apply (HttpFacts.text_not_nil 85%N _
            (py "RL did not return an image (Content-Type: ")) in H. }
        split.
        { intros data c err [= <- <- <-].
          split; apply Hshape; left; eauto. }
        split; [intros; simplify_eq; congruence |].
        split; [done |].
        split; [intros; simplify_eq; congruence |].
        split; [intros r [= <-] _ _; by rewrite Hct |].
        done.
    + change (PySeq.startswith (py "image/") []) with false. cbn [negb].
      split.
      { right. eexists. split; [| done].
        intros H. by apply (HttpFacts.text_not_nil 85%N _
          (py "RL did not return an image (Content-Type: ")) in H. }
      split.
      { intros data c err [= <- <- <-].
        split; apply Hshape; left; eauto. }
      split; [intros; simplify_eq; congruence |].
      split; [done |].
      split; [intros; simplify_eq; congruence |].
      split; [intros r [= <-] _ _; by rewrite Hct |].
      done.
  - split.
    { right. eexists. split; [| done].
      apply HttpFacts.http_status_line_not_nil. }
    split.
    { intros data c err [= <- <- <-].
      split; apply Hshape; left; eauto. }
    split; [intros; simplify_eq; congruence |].
    split; [done |].
    split; [by intros r [= <-] _ |].
    split; [intros; simplify_eq; congruence |].
    done.
Qed.

Lemma fetch_image_url_shapes_witness :
  fetch_image_url (always (Failed (py "timed out")))
    (py "https://example.com/pack.png")
  = (None, None, Some (py "timed out")) /\
  fetch_image_url
    (always (Responded (sample_resp 200 (py "OK") (py "<html></html>")
                          (Some (py "text/html")) (Raise JSONDecodeError))))
    (py "https://example.com/pack.png")
  = (None, None,
     Some (py "URL did not return an image (Content-Type: text/html)")) /\
  fetch_image_url (always (Responded png_resp))
    (py "https://example.com/pack.png")
  = (Some [x89; x50; x4e; x47], Some (py "image/png"), None).
Proof.
  split; [| split].
  - refine (proj2 (proj2 (proj2 (proj2 (proj2 (proj2
             (fetch_image_url_shapes (always (Failed (py "timed out")))
                (py "https://example.com/pack.png") _))))))
             (py "timed out") eq_refl).
    intros msg [= <-]. discriminate.
  - refine (proj1 (proj2 (proj2 (proj2 (proj2 (proj2
             (fetch_image_url_shapes
                (always (Responded (sample_resp 200 (py "OK")
                                      (py "<html></html>")
                                      (Some (py "text/html"))
                                      (Raise JSONDecodeError))))
                (py "https://example.com/pack.png") _))))))
             _ eq_refl eq_refl eq_refl).
    intros msg [=].
  - refine (proj1 (proj2 (proj2
             (fetch_image_url_shapes (always (Responded png_resp))
                (py "https://example.com/pack.png") _)))
             png_resp (py "image/png") eq_refl eq_refl eq_refl eq_refl).
    intros msg [=].
Defined.

(** ** The result display *)

(** C9 (amended): when the stored output text is not empty and
    [json.loads] rejects it with [JSONDecodeError], the display emits the
    warning and the raw text, verbatim, and no exception leaves it; the raw
    text is shown in that case only.  When [json.loads] raises an
    exception of another type, the handler does not catch it: nothing is
    shown and that exception leaves the display. *)
Theorem invalid_json_is_shown_raw
    (json_loads : str -> result json) (json_dumps : json -> str)
    (st : session_state) (output_text : str) :
  last_output_text st = Some output_text ->
  output_text <> [] ->
  (json_loads output_text = Raise JSONDecodeError ->
   show_last_result json_loads json_dumps st
   = ([st_warning (py "Output is not valid JSON. Showing raw text.");
       st_code output_text], Ok ())) /\
  (forall s,
      st_code s ∈ fst (show_last_result json_loads json_dumps st) <->
      s = output_text /\ json_loads output_text = Raise JSONDecodeError) /\
  (forall e,
      json_loads output_text = Raise e -> e <> JSONDecodeError ->
      show_last_result json_loads json_dumps st = ([], Raise e)).
Proof.
  intros Hst Hne. unfold show_last_result. rewrite Hst.
  destruct output_text as [|c rest]; [done |].
  destruct (json_loads (c :: rest)) as [parsed|e] eqn:Hloads.
  - split; [done |]. split; [| done].
    intros s. split; [| by intros [_ ?]].
    unfold show_parsed. destruct (missing parsed) as [absent|e]; cbn [fst].
    + intros [?|Hin]%elem_of_cons; [done |].
      apply elem_of_app in Hin as [Hin|Hin].
      * destruct absent; [by apply elem_of_nil in Hin |].
        apply elem_of_cons in Hin as [?|Hin]; [done |].
        by apply elem_of_nil in Hin.
      * apply elem_of_cons in Hin as [?|Hin]; [done |].
        by apply elem_of_nil in Hin.
    + intros [?|?%elem_of_nil]%elem_of_cons; done.
  - split; [by intros [= ->] |]. split.
    + intros s. destruct e; cbn [fst]; split;
        try (by intros ?%elem_of_nil); try (by intros [_ ?]).
      * intros [?|[[= ->]|?%elem_of_nil]%elem_of_cons]%elem_of_cons; done.
      * intros [-> _]. right. by left.
    + intros e' [= <-] He. by destruct e.
Qed.

Lemma invalid_json_is_shown_raw_witness :
  show_last_result sample_loads sample_dumps refused_session
  = ([st_warning (py "Output is not valid JSON. Showing raw text.");
      st_code (py "sorry, I cannot process this")], Ok ()).
Proof.
  apply (invalid_json_is_shown_raw sample_loads sample_dumps refused_session
           (py "sorry, I cannot process this")).
  - reflexivity.
  - discriminate.
  - reflexivity.
Defined.

(** C9 (as stated) fails: the stored text below, 2000 opening brackets,
    is not empty and is no valid JSON, yet [json.loads] does not reject it
    with [JSONDecodeError]: its scanner exceeds the recursion limit first
    and raises [RecursionError], which the handler does not name.  The
    display shows neither the warning nor the raw text, and the exception
    leaves it. *)
Lemma deep_nesting_leaves_display :
  last_output_text nested_session = Some nested_text /\
  nested_text <> [] /\
  nested_loads nested_text = Raise RecursionError /\
  show_last_result nested_loads sample_dumps nested_session
  = ([], Raise RecursionError) /\
  show_last_result nested_loads sample_dumps nested_session
  <> ([st_warning (py "Output is not valid JSON. Showing raw text.");
       st_code nested_text], Ok ()).
Proof.
  assert (nested_loads nested_text = Raise RecursionError) as Hloads
    by (vm_compute; reflexivity).
  assert (show_last_result nested_loads sample_dumps nested_session
          = ([], Raise RecursionError)) as Hshow.
  { unfold show_last_result, nested_session. cbn [last_output_text].
    assert (exists c rest, nested_text = c :: rest) as (c & rest & Heq)
      by (by eexists _, _).
    rewrite Heq at 1. by rewrite Hloads. }
  split; [reflexivity |]. split; [discriminate |]. split; [exact Hloads |].
  split; [exact Hshow |]. rewrite Hshow. discriminate.
Qed.

(** ** [call_openai] *)

Module CallFacts.
Section facts.
Variable py_repr : json -> str.

Lemma error_detail_object resp body err :
  json_body resp = Ok (JObj body) ->
  body !! py "error" = Some (JObj err) ->
  error_detail py_repr resp = Ok (structured_detail py_repr err).
Proof.
  intros Hbody Herr. unfold error_detail. rewrite Hbody.
  rewrite ExtractFacts.bind_Ok. cbn [py_get]. rewrite Herr.
  by rewrite !ExtractFacts.bind_Ok.
Qed.

Lemma error_detail_no_error resp body :
  json_body resp = Ok (JObj body) ->
  body !! py "error" = None ->
  error_detail py_repr resp = Ok (structured_detail py_repr ∅).
Proof.
  intros Hbody Herr. unfold error_detail. rewrite Hbody.
  rewrite ExtractFacts.bind_Ok. cbn [py_get]. rewrite Herr.
  by rewrite !ExtractFacts.bind_Ok.
Qed.

Lemma error_detail_not_object resp :
  (forall body, json_body resp <> Ok (JObj body)) ->
  exists e, error_detail py_repr resp = Raise e.
Proof.
  intros Hno. unfold error_detail.
  destruct (json_body resp) as [v|e]; [| by exists e].
  destruct v; try (by eexists). by destruct (Hno members).
Qed.

Lemma error_detail_error_not_object resp body v :
  json_body resp = Ok (JObj body) ->
  body !! py "error" = Some v ->
  is_obj v = false ->
  exists e, error_detail py_repr resp = Raise e.
Proof.
  intros Hbody Herr Hv. unfold error_detail. rewrite Hbody.
  rewrite ExtractFacts.bind_Ok. cbn [py_get]. rewrite Herr.
  rewrite ExtractFacts.bind_Ok. destruct v; try discriminate; by eexists.
Qed.
End facts.
End CallFacts.

(** C5 (amended): for every response to the extraction POST that is not
    ok (a status from 400 to 599), [call_openai] returns no result: it
    raises a [RuntimeError] whose message is
    ["HTTP <status> <reason>: <detail><hint>"].  The message holds the
    status code.  When the body decodes to a JSON object whose ["error"]
    member is an object, the detail is
    ["<message> (type=<type>, code=<code>)"], stripped, built from the
    members of that object (an absent member reads as empty); when the
    body decodes to a JSON object without an ["error"] member, the detail
    is built the same way from the empty object, that is ["(type=,
    code=)"]; when the body does not decode to a JSON object, or its
    ["error"] member is no object, the detail is the first 1000 characters
    of the raw text.  The hint is the access hint exactly when the status
    is 401, 403 or 404, and empty otherwise. *)
Theorem call_openai_failure
    (requests_post : str -> list (str * str) -> json -> outcome)
    (py_repr : json -> str)
    (api_key system_prompt user_prompt image_url : str) (resp : Response) :
  requests_post (OPENAI_API_BASE ++ py "/responses") (bearer api_key)
    (payload system_prompt user_prompt image_url) = Responded resp ->
  ok resp = false ->
  exists detail hint,
    call_openai requests_post py_repr api_key system_prompt user_prompt image_url
    = Raise (RuntimeError
               (py "HTTP " ++ str_of_int (status_code resp) ++ py " "
                ++ reason resp ++ py ": " ++ detail ++ hint)) /\
    PySeq.contains (str_of_int (status_code resp))
      (py "HTTP " ++ str_of_int (status_code resp) ++ py " "
       ++ reason resp ++ py ": " ++ detail ++ hint) = true /\
    (status_code resp = 401 \/ status_code resp = 403 \/ status_code resp = 404 ->
     hint = access_hint) /\
    (status_code resp <> 401 -> status_code resp <> 403 ->
     status_code resp <> 404 -> hint = []) /\
    (forall body err,
        json_body resp = Ok (JObj body) ->
        body !! py "error" = Some (JObj err) ->
        detail = structured_detail py_repr err /\
        forall message err_type code,
          err !! py "message" = Some (JStr message) ->
          err !! py "type" = Some (JStr err_type) ->
          err !! py "code" = Some (JStr code) ->
          detail = strip (message ++ py " (type=" ++ err_type
                          ++ py ", code=" ++ code ++ py ")")) /\
    (forall body,
        json_body resp = Ok (JObj body) ->
        body !! py "error" = None ->
        detail = strip (py " (type=, code=)")) /\
    ((forall body, json_body resp <> Ok (JObj body)) ->
     detail = take 1000 (text resp) /\ (length detail <= 1000)%nat) /\
    (forall body v,
        json_body resp = Ok (JObj body) ->
        body !! py "error" = Some v ->
        is_obj v = false ->
        detail = take 1000 (text resp) /\ (length detail <= 1000)%nat).
Proof.
  intros Hpost Hok.
  exists (match error_detail py_repr resp with
          | Ok d => d
          | Raise _ => take 1000 (text resp)
          end),
         (if (status_code resp =? 401) || (status_code resp =? 403)
             || (status_code resp =? 404)
          then access_hint else []).
  split; [| split; [| split; [| split; [| split; [| split; [| split]]]]]].
  - unfold call_openai. rewrite Hpost, Hok. cbn [negb].
    unfold diagnostic, http_status_line. by rewrite <- !app_assoc.
  - apply PySeqFacts.contains_true. exists (py "HTTP "). by eexists.
  - intros [-> | [-> | ->]]; reflexivity.
  - intros H1 H2 H3.
    destruct (Z.eqb_spec (status_code resp) 401); [done |].
    destruct (Z.eqb_spec (status_code resp) 403); [done |].
    by destruct (Z.eqb_spec (status_code resp) 404).
  - intros body err Hbody Herr.
    rewrite (CallFacts.error_detail_object py_repr resp body err Hbody Herr).
    split; [reflexivity |].
    intros message err_type code Hm Ht Hc.
    unfold structured_detail, member. by rewrite Hm, Ht, Hc.
  - intros body Hbody Herr.
    rewrite (CallFacts.error_detail_no_error py_repr resp body Hbody Herr).
    unfold structured_detail, member. by rewrite !lookup_empty.
  - intros Hno.
    destruct (CallFacts.error_detail_not_object py_repr resp Hno) as [e ->].
    split; [reflexivity |]. rewrite length_take. lia.
  - intros body v Hbody Herr Hv.
    destruct (CallFacts.error_detail_error_not_object py_repr resp body v
                Hbody Herr Hv) as [e ->].
    split; [reflexivity |]. rewrite length_take. lia.
Qed.

Lemma call_openai_failure_witness :
  call_openai (always_post (Responded quota_resp)) sample_repr
    (py "sk-test") (py "system") (py "user") (py "data:image/png;base64,AQ==")
  = Raise (RuntimeError
             (py "HTTP 429 Too Many Requests: You exceeded your current quota. (type=insufficient_quota, code=None)")).
Proof.
  destruct (call_openai_failure (always_post (Responded quota_resp)) sample_repr
              (py "sk-test") (py "system") (py "user")
              (py "data:image/png;base64,AQ==") quota_resp eq_refl eq_refl)
    as (detail & hint & Hcall & _ & _ & Hhint & Hobj & _).
  rewrite Hcall.
  rewrite (Hhint ltac:(discriminate) ltac:(discriminate) ltac:(discriminate)).
  destruct (Hobj _ _ eq_refl eq_refl) as [-> _].
  reflexivity.
Defined.

(** C5 (as stated) fails: the body [{"detail":"Not Found"}] of a 404
    answer is a JSON object, but no structured error body: it holds no
    ["error"] member and so no message, type or code.  The diagnostic does
    not fall back to the raw text: its detail is ["(type=, code=)"], and
    the raw text is no part of the message. *)
Lemma call_openai_no_raw_text :
  ok not_found_resp = false /\
  (exists body,
      json_body not_found_resp = Ok (JObj body) /\ body !! py "error" = None) /\
  call_openai (always_post (Responded not_found_resp)) sample_repr
    (py "sk-test") (py "system") (py "user") (py "data:image/png;base64,AQ==")
  = Raise (RuntimeError (py "HTTP 404 Not Found: (type=, code=)" ++ access_hint)) /\
  PySeq.contains (take 1000 (text not_found_resp))
    (py "HTTP 404 Not Found: (type=, code=)" ++ access_hint) = false /\
  call_openai (always_post (Responded not_found_resp)) sample_repr
    (py "sk-test") (py "system") (py "user") (py "data:image/png;base64,AQ==")
  <> Raise (RuntimeError
              (py "HTTP 404 Not Found: " ++ take 1000 (text not_found_resp)
               ++ access_hint)).
Proof.
  split; [reflexivity |].
  split; [eexists; split; [reflexivity | vm_compute; reflexivity] |].
  split; [vm_compute; reflexivity |].
  split; [vm_compute; reflexivity |].
  intros H. vm_compute in H. discriminate.
Qed.


(* ===================================================================== *)
(** * Part III: further properties of the page                            *)
(* ===================================================================== *)

(** ** More about [split] *)

Module SplitFacts.
Import PySeq PySeqFacts.
Local Open Scope nat_scope.
Section facts.
Context {A : Type} `{EqDecision A}.
Implicit Types p s sep a b : list A.

Lemma find_Some_not_nil sep s i : sep <> [] -> find sep s = Some i -> s <> [].
Proof. intros Hsep Hf ->. by rewrite find_nil_r in Hf. Qed.

(** An occurrence inside a prefix or a suffix is an occurrence in the whole. *)
Lemma contains_false_prefix p s x :
  contains p s = false -> x `prefix_of` s -> contains p x = false.
Proof.
  intros Hs [t ->]. destruct (contains p x) eqn:E; [| done].
  apply contains_true in E as (a & b & ->).
  assert (contains p ((a ++ p ++ b) ++ t) = true) as Hc; [| congruence].
  apply contains_true. exists a, (b ++ t). by rewrite <- !app_assoc.
Qed.

Lemma contains_false_suffix p s x :
  contains p s = false -> x `suffix_of` s -> contains p x = false.
Proof.
  intros Hs [t ->]. destruct (contains p x) eqn:E; [| done].
  apply contains_true in E as (a & b & ->).
  assert (contains p (t ++ a ++ p ++ b) = true) as Hc; [| congruence].
  apply contains_true. exists (t ++ a), b. by rewrite <- !app_assoc.
Qed.

(** The last piece of a split is a suffix of the text and holds no
    separator. *)
Lemma item_last_split_suffix sep s :
  sep <> [] -> item_last (split sep s) `suffix_of` s.
Proof.
  intros Hsep. remember (length s) as n eqn:Hn. revert s Hn.
  induction n as [n IH] using lt_wf_ind. intros s ->.
  rewrite split_unfold by done.
  destruct (find sep s) as [i|] eqn:E; [| done].
  rewrite item_last_cons by apply split_not_nil.
  assert (0 < length sep) by (destruct sep; [done | simpl; lia]).
  assert (s <> []) as Hs by (by eapply find_Some_not_nil).
  assert (0 < length s) by (destruct s; [done | simpl; lia]).
  etrans.
  - apply (IH (length (drop (i + length sep) s))); [| done].
    rewrite length_drop. lia.
  - apply suffix_drop.
Qed.

Lemma item_last_split_clean sep s :
  sep <> [] -> contains sep (item_last (split sep s)) = false.
Proof.
  intros Hsep. remember (length s) as n eqn:Hn. revert s Hn.
  induction n as [n IH] using lt_wf_ind. intros s ->.
  rewrite split_unfold by done.
  destruct (find sep s) as [i|] eqn:E.
  - rewrite item_last_cons by apply split_not_nil.
    assert (0 < length sep) by (destruct sep; [done | simpl; lia]).
    assert (s <> []) as Hs by (by eapply find_Some_not_nil).
    assert (0 < length s) by (destruct s; [done | simpl; lia]).
    apply (IH (length (drop (i + length sep) s))); [| done].
    rewrite length_drop. lia.
  - by apply contains_false.
Qed.

(** The first piece of a split is a prefix of the text and holds no
    separator. *)
Lemma item_first_split_prefix sep s :
  sep <> [] -> item_first (split sep s) `prefix_of` s.
Proof.
  intros Hsep. rewrite item_first_split by done.
  destruct (find sep s); [apply prefix_take | done].
Qed.

Lemma item_first_split_clean sep s :
  sep <> [] -> contains sep (item_first (split sep s)) = false.
Proof.
  intros Hsep. rewrite item_first_split by done.
  destruct (find sep s) as [i|] eqn:E; [| by apply contains_false].
  apply find_Some in E as (_ & Hi & Hmin).
  destruct (contains sep (take i s)) eqn:Ec; [| done].
  apply contains_true in Ec as (a & b & Heq).
  assert (0 < length sep) by (destruct sep; [done | simpl; lia]).
  assert (length a < i) as Hlt.
  { apply (f_equal length) in Heq. rewrite length_take, !length_app in Heq. lia. }
  specialize (Hmin (length a) Hlt).
  rewrite <- (take_drop i s), Heq, <- !app_assoc, drop_app_length in Hmin.
  by rewrite startswith_app in Hmin.
Qed.

(** A piece that holds the separator is cut: its first piece differs. *)
Lemma item_first_split_cut sep s :
  sep <> [] -> contains sep s = true -> item_first (split sep s) <> s.
Proof.
  intros Hsep Hc Heq. pose proof (item_first_split_clean sep s Hsep) as Hn.
  rewrite Heq in Hn. congruence.
Qed.
End facts.
End SplitFacts.

(** ** The file id [normalize_drive_url] extracts *)

Module DriveIdFacts.
Import PySeq PySeqFacts SplitFacts DriveUrlFacts.
Local Open Scope nat_scope.

Local Abbreviation DRIVE := (py "drive.google.com").
Local Abbreviation ID_EQ := (py "id=").
Local Abbreviation FILE_D := (py "/file/d/").

(** The id of the query-parameter branch holds neither ["&"] nor ["id="]. *)
Lemma query_id_clean (url : str) :
  let fid := item_first (split (py "&") (item_last (split ID_EQ url))) in
  contains (py "&") fid = false /\ contains ID_EQ fid = false.
Proof.
  split.
  - by apply item_first_split_clean.
  - apply (contains_false_prefix _ (item_last (split ID_EQ url))).
    + by apply item_last_split_clean.
    + by apply item_first_split_prefix.
Qed.

(** The id of the path-segment branch holds no ["/"], and nothing the URL
    does not hold. *)
Lemma path_id_clean (url : str) :
  let fid := item_first (split (py "/") (item_last (split FILE_D url))) in
  contains (py "/") fid = false /\
  forall p, contains p url = false -> contains p fid = false.
Proof.
  split.
  - by apply item_first_split_clean.
  - intros p Hp.
    apply (contains_false_prefix _ (item_last (split FILE_D url))).
    + apply (contains_false_suffix _ url); [done |].
      by apply item_last_split_suffix.
    + by apply item_first_split_prefix.
Qed.

(** Whatever canonical URL the normalizer returns, its id holds no
    ["id="]. *)
Lemma normalize_id_no_id_eq url fid :
  normalize_drive_url url = canonical_drive_url fid ->
  contains ID_EQ fid = false.
Proof.
  unfold normalize_drive_url.
  destruct (contains DRIVE url) eqn:Hd; cbn [negb].
  2:{ intros ->. by rewrite canonical_contains_drive in Hd. }
  destruct (contains ID_EQ url) eqn:Hi.
  { intros <-%canonical_inj. apply query_id_clean. }
  destruct (contains FILE_D url) eqn:Hf.
  { intros <-%canonical_inj. by apply path_id_clean. }
  intros ->. by rewrite canonical_contains_id in Hi.
Qed.

(** Normalizing a canonical URL cuts its id at the first ["&"]. *)
Lemma normalize_canonical_cut fid :
  contains ID_EQ fid = false ->
  normalize_drive_url (canonical_drive_url fid)
  = canonical_drive_url (item_first (split (py "&") fid)).
Proof.
  intros Hid. unfold normalize_drive_url at 1.
  rewrite canonical_contains_drive, canonical_contains_id. cbn [negb].
  change (canonical_drive_url fid)
    with (py "https://drive.google.com/uc?export=download&" ++ ID_EQ ++ fid) at 1.
  rewrite item_last_split; [done | done | done |].
  intros k Hk. by apply id_eq_no_overlap in Hk.
Qed.

(** A text without ["/"] holds no ["/file/d/"]. *)
Lemma no_slash_no_file_d (fid : str) :
  contains (py "/") fid = false -> contains FILE_D fid = false.
Proof.
  intros Hslash. destruct (contains FILE_D fid) eqn:E; [| done].
  apply contains_true in E as (a & b & ->).
  assert (contains (py "/") (a ++ FILE_D ++ b) = true) as Hc; [| congruence].
  apply contains_true. by exists a, (py "file/d/" ++ b).
Qed.

(** The path-segment form when the URL ends with the segment. *)
Lemma normalize_path_end (pre fid : str) :
  contains DRIVE (pre ++ FILE_D ++ fid) = true ->
  contains ID_EQ (pre ++ FILE_D ++ fid) = false ->
  contains (py "/") fid = false ->
  endswith (py "/file/d") pre = false ->
  normalize_drive_url (pre ++ FILE_D ++ fid) = canonical_drive_url fid.
Proof.
  intros Hdrive Hid Hslash Hpre. unfold normalize_drive_url.
  rewrite Hdrive, Hid. cbn [negb].
  assert (contains FILE_D (pre ++ FILE_D ++ fid) = true) as ->.
  { apply contains_true. by exists pre, fid. }
  rewrite item_last_split; [| done | by apply no_slash_no_file_d |].
  - by rewrite item_first_split_absent.
  - intros k Hk Hsuf. apply file_d_overlap in Hk as ->.
    apply endswith_spec in Hsuf.
    change (take 7 FILE_D) with (py "/file/d") in Hsuf. congruence.
Qed.

(** The normalizer is idempotent on a URL exactly when the id of the
    canonical URL it returns, if it returns one, holds no ["&"]. *)
Lemma idempotent_iff (url : str) :
  normalize_drive_url (normalize_drive_url url) = normalize_drive_url url
  <-> forall fid,
        normalize_drive_url url = canonical_drive_url fid ->
        contains (py "&") fid = false.
Proof.
  split.
  - intros Hidem fid Hfid.
    pose proof (normalize_id_no_id_eq url fid Hfid) as Hid.
    rewrite Hfid, normalize_canonical_cut in Hidem by done.
    apply canonical_inj in Hidem.
    destruct (contains (py "&") fid) eqn:Hamp; [| done].
    by apply item_first_split_cut in Hidem.
  - intros Hamp.
    destruct (normalize_cases url) as [Heq|[fid Heq]].
    + by rewrite !Heq.
    + rewrite Heq. apply normalize_canonical.
      * by apply Hamp.
      * by apply (normalize_id_no_id_eq url).
Qed.

Lemma canonical_contains_amp fid :
  contains (py "&") (canonical_drive_url fid) = true.
Proof.
  apply contains_true.
  by exists (py "https://drive.google.com/uc?export=download"), (py "id=" ++ fid).
Qed.

Lemma idempotent_query (url : str) :
  contains ID_EQ url = true ->
  normalize_drive_url (normalize_drive_url url) = normalize_drive_url url.
Proof.
  intros Hi. apply idempotent_iff. intros fid Hfid.
  unfold normalize_drive_url in Hfid.
  destruct (contains DRIVE url) eqn:Hd; cbn [negb] in Hfid.
  - rewrite Hi in Hfid. apply canonical_inj in Hfid. subst fid.
    apply query_id_clean.
  - subst url. by rewrite canonical_contains_drive in Hd.
Qed.

Lemma idempotent_no_amp (url : str) :
  contains (py "&") url = false ->
  normalize_drive_url (normalize_drive_url url) = normalize_drive_url url.
Proof.
  intros Hamp. apply idempotent_iff. intros fid Hfid.
  unfold normalize_drive_url in Hfid.
  destruct (contains DRIVE url) eqn:Hd; cbn [negb] in Hfid.
  2:{ subst url. by rewrite canonical_contains_amp in Hamp. }
  destruct (contains ID_EQ url) eqn:Hi.
  { apply canonical_inj in Hfid. subst fid. apply query_id_clean. }
  destruct (contains FILE_D url) eqn:Hf.
  - apply canonical_inj in Hfid. subst fid. by apply path_id_clean.
  - subst url. by rewrite canonical_contains_amp in Hamp.
Qed.
End DriveIdFacts.

(** C10 (amended): [normalize_drive_url] returns its argument for a URL
    that does not hold ["drive.google.com"], and for a URL that holds
    neither ["id="] nor ["/file/d/"].  It is idempotent on every URL it
    returns unchanged, on every URL that holds ["id="] and on every URL
    that holds no ["&"].  A Drive URL without ["id="] of the path form
    [pre/file/d/<seg><rest>], where [<seg>] holds no ["/"] and [<rest>] is
    empty or begins with ["/"], is rewritten to the canonical URL of
    [<seg>], and the normalizer is idempotent on it exactly when [<seg>]
    holds no ["&"]: [<seg>] is all that stands between ["/file/d/"] and the
    next ["/"], a query string included. *)
Theorem normalize_drive_url_idempotent (url : str) :
  (PySeq.contains (py "drive.google.com") url = false ->
   normalize_drive_url url = url) /\
  (PySeq.contains (py "id=") url = false ->
   PySeq.contains (py "/file/d/") url = false ->
   normalize_drive_url url = url) /\
  (PySeq.contains (py "drive.google.com") url = false \/
   PySeq.contains (py "id=") url = true \/
   PySeq.contains (py "&") url = false \/
   (PySeq.contains (py "id=") url = false /\
    PySeq.contains (py "/file/d/") url = false) ->
   normalize_drive_url (normalize_drive_url url) = normalize_drive_url url) /\
  (forall pre seg rest : str,
      url = pre ++ py "/file/d/" ++ seg ++ rest ->
      PySeq.contains (py "drive.google.com") url = true ->
      PySeq.contains (py "id=") url = false ->
      PySeq.contains (py "/") seg = false ->
      rest = [] \/ (exists r, rest = py "/" ++ r) ->
      PySeq.contains (py "/file/d/") (seg ++ rest) = false ->
      PySeq.endswith (py "/file/d") pre = false ->
      normalize_drive_url url = canonical_drive_url seg /\
      (normalize_drive_url (normalize_drive_url url) = normalize_drive_url url
       <-> PySeq.contains (py "&") seg = false)).
Proof.
  assert (PySeq.contains (py "drive.google.com") url = false ->
          normalize_drive_url url = url) as Hother.
  { intros H. unfold normalize_drive_url. by rewrite H. }
  assert (PySeq.contains (py "id=") url = false ->
          PySeq.contains (py "/file/d/") url = false ->
          normalize_drive_url url = url) as Hplain.
  { intros H1 H2. unfold normalize_drive_url. rewrite H1, H2.
    by destruct (PySeq.contains (py "drive.google.com") url). }
  split; [exact Hother |]. split; [exact Hplain |]. split.
  - intros [H|[H|[H|[H1 H2]]]].
    + by rewrite !Hother.
    + by apply DriveIdFacts.idempotent_query.
    + by apply DriveIdFacts.idempotent_no_amp.
    + by rewrite !Hplain.
  - intros pre seg rest -> Hd Hi Hslash Hrest Hlater Hpre.
    assert (normalize_drive_url (pre ++ py "/file/d/" ++ seg ++ rest)
            = canonical_drive_url seg) as Hnorm.
    { destruct Hrest as [->|[r ->]].
      - rewrite app_nil_r in *. by apply DriveIdFacts.normalize_path_end.
      - by apply DriveUrlFacts.normalize_path. }
    split; [exact Hnorm |].
    rewrite DriveIdFacts.idempotent_iff. split.
    + intros H. by apply H.
    + intros Hamp fid Hfid. rewrite Hnorm in Hfid.
      apply DriveUrlFacts.canonical_inj in Hfid. by subst fid.
Qed.

Lemma normalize_drive_url_idempotent_witness :
  normalize_drive_url (py "https://example.com/pack.png")
  = py "https://example.com/pack.png" /\
  normalize_drive_url (py "https://drive.google.com/drive/my-drive")
  = py "https://drive.google.com/drive/my-drive" /\
  normalize_drive_url
    (normalize_drive_url (py "https://drive.google.com/open?id=1AbC_d-9&x=1"))
  = normalize_drive_url (py "https://drive.google.com/open?id=1AbC_d-9&x=1") /\
  normalize_drive_url (py "https://drive.google.com/file/d/1AbC_d-9/view")
  = canonical_drive_url (py "1AbC_d-9") /\
  normalize_drive_url
    (normalize_drive_url (py "https://drive.google.com/file/d/1AbC_d-9/view"))
  = normalize_drive_url (py "https://drive.google.com/file/d/1AbC_d-9/view").
Proof.
  split; [| split; [| split]].
  - exact (proj1 (normalize_drive_url_idempotent
                    (py "https://example.com/pack.png")) eq_refl).
  - exact (proj1 (proj2 (normalize_drive_url_idempotent
                           (py "https://drive.google.com/drive/my-drive")))
             eq_refl eq_refl).
  - apply (proj1 (proj2 (proj2 (normalize_drive_url_idempotent
             (py "https://drive.google.com/open?id=1AbC_d-9&x=1"))))).
    right. left. reflexivity.
  - destruct (proj2 (proj2 (proj2 (normalize_drive_url_idempotent
                (py "https://drive.google.com/file/d/1AbC_d-9/view"))))
                (py "https://drive.google.com") (py "1AbC_d-9") (py "/view")
                eq_refl eq_refl eq_refl eq_refl
                (or_intror (ex_intro _ (py "view") eq_refl))
                eq_refl eq_refl) as [Hnorm Hiff].
    split; [exact Hnorm | by apply Hiff].
Defined.

(** C10 (as stated) fails: in the URL below the file id [ABC], which holds
    neither ["&"] nor ["id="], is followed by the query string without a
    ["/"] in between.  The normalizer takes the whole of
    [ABC?usp=sharing&x=1] for the id; applied to its own result it cuts that
    id at the ["&"], so applying it twice differs from applying it once. *)
Lemma normalize_drive_url_twice_differs :
  py "https://drive.google.com/file/d/ABC?usp=sharing&x=1"
  = py "https://drive.google.com/file/d/" ++ py "ABC" ++ py "?usp=sharing&x=1" /\
  PySeq.contains (py "&") (py "ABC") = false /\
  PySeq.contains (py "id=") (py "ABC") = false /\
  normalize_drive_url (py "https://drive.google.com/file/d/ABC?usp=sharing&x=1")
  = canonical_drive_url (py "ABC?usp=sharing&x=1") /\
  normalize_drive_url
    (normalize_drive_url
       (py "https://drive.google.com/file/d/ABC?usp=sharing&x=1"))
  = canonical_drive_url (py "ABC?usp=sharing") /\
  normalize_drive_url
    (normalize_drive_url
       (py "https://drive.google.com/file/d/ABC?usp=sharing&x=1"))
  <> normalize_drive_url
       (py "https://drive.google.com/file/d/ABC?usp=sharing&x=1").
Proof.
  repeat split; try (vm_compute; reflexivity).
  intros H. vm_compute in H. discriminate.
Qed.

(** X1: for a Drive URL that holds ["id="] the normalizer returns a
    canonical URL whose id holds neither ["&"] nor ["id="]; for a Drive URL
    that holds no ["id="] but ["/file/d/"] it returns a canonical URL whose
    id holds neither ["/"] nor ["id="].  The id never runs over its
    delimiter. *)
Theorem normalize_drive_url_id_clean (url : str) :
  PySeq.contains (py "drive.google.com") url = true ->
  (PySeq.contains (py "id=") url = true ->
   exists fid,
     normalize_drive_url url = canonical_drive_url fid /\
     PySeq.contains (py "&") fid = false /\
     PySeq.contains (py "id=") fid = false) /\
  (PySeq.contains (py "id=") url = false ->
   PySeq.contains (py "/file/d/") url = true ->
   exists fid,
     normalize_drive_url url = canonical_drive_url fid /\
     PySeq.contains (py "/") fid = false /\
     PySeq.contains (py "id=") fid = false).
Proof.
  intros Hd. unfold normalize_drive_url. rewrite Hd. cbn [negb]. split.
  - intros ->. eexists. split; [reflexivity |]. apply DriveIdFacts.query_id_clean.
  - intros Hi ->. rewrite Hi. eexists. split; [reflexivity |].
    destruct (DriveIdFacts.path_id_clean url) as [Hslash Hsub].
    split; [exact Hslash | by apply Hsub].
Qed.

Lemma normalize_drive_url_id_clean_witness :
  exists fid,
    normalize_drive_url (py "https://drive.google.com/uc?id=1AbC&export=download&id=9xY&z=1")
    = canonical_drive_url fid /\
    PySeq.contains (py "&") fid = false /\
    PySeq.contains (py "id=") fid = false.
Proof.
  exact (proj1 (normalize_drive_url_id_clean
                  (py "https://drive.google.com/uc?id=1AbC&export=download&id=9xY&z=1")
                  eq_refl) eq_refl).
Defined.

(** X2: the normalizer is idempotent on a URL exactly when the id of the
    canonical URL it returns (if it returns one) holds no ["&"].  So it is
    idempotent on every URL that holds ["id="], with no condition on the
    URL, and it is not on a path-form URL whose id segment holds ["&"]. *)
Theorem normalize_drive_url_idempotent_iff (url : str) :
  (normalize_drive_url (normalize_drive_url url) = normalize_drive_url url
   <-> forall fid,
         normalize_drive_url url = canonical_drive_url fid ->
         PySeq.contains (py "&") fid = false) /\
  (PySeq.contains (py "id=") url = true ->
   normalize_drive_url (normalize_drive_url url) = normalize_drive_url url).
Proof.
  assert (normalize_drive_url (normalize_drive_url url) = normalize_drive_url url
          <-> forall fid,
                normalize_drive_url url = canonical_drive_url fid ->
                PySeq.contains (py "&") fid = false) as Hiff.
  { split.
    - intros Hidem fid Hfid.
      pose proof (DriveIdFacts.normalize_id_no_id_eq url fid Hfid) as Hid.
      rewrite Hfid, DriveIdFacts.normalize_canonical_cut in Hidem by done.
      apply DriveUrlFacts.canonical_inj in Hidem.
      destruct (PySeq.contains (py "&") fid) eqn:Hamp; [| done].
      by apply SplitFacts.item_first_split_cut in Hidem.
    - intros Hamp.
      destruct (DriveUrlFacts.normalize_cases url) as [Heq|[fid Heq]].
      + by rewrite !Heq.
      + rewrite Heq. apply DriveUrlFacts.normalize_canonical.
        * by apply Hamp.
        * by apply (DriveIdFacts.normalize_id_no_id_eq url). }
  split; [exact Hiff |].
  intros Hi. apply Hiff. intros fid Hfid.
  destruct (PySeq.contains (py "drive.google.com") url) eqn:Hd.
  - unfold normalize_drive_url in Hfid. rewrite Hd, Hi in Hfid.
    cbn [negb] in Hfid. apply DriveUrlFacts.canonical_inj in Hfid.
    subst fid. apply DriveIdFacts.query_id_clean.
  - exfalso. unfold normalize_drive_url in Hfid. rewrite Hd in Hfid.
    cbn [negb] in Hfid. subst url.
    by rewrite DriveUrlFacts.canonical_contains_drive in Hd.
Qed.

Lemma normalize_drive_url_idempotent_iff_witness :
  normalize_drive_url
    (normalize_drive_url (py "https://drive.google.com/open?id=a&b&id=c&d"))
  = normalize_drive_url (py "https://drive.google.com/open?id=a&b&id=c&d")
  /\
  normalize_drive_url
    (normalize_drive_url (py "https://drive.google.com/file/d/a&b/view"))
  <> normalize_drive_url (py "https://drive.google.com/file/d/a&b/view").
Proof.
  split.
  - exact (proj2 (normalize_drive_url_idempotent_iff
                    (py "https://drive.google.com/open?id=a&b&id=c&d")) eq_refl).
  - intros Hidem.
    apply (proj1 (normalize_drive_url_idempotent_iff
                    (py "https://drive.google.com/file/d/a&b/view"))) with
      (fid := py "a&b") in Hidem; [discriminate Hidem | reflexivity].
Defined.

(** ** More about [extract_output_text] *)

Module ExtractMoreFacts.
Import ExtractFacts.

Lemma collect_content_shaped contents texts :
  forallb is_obj contents = true ->
  collect_content contents texts =
    Ok (texts ++ List.map raw_text_of
                   (List.filter (fun c => has_type c (py "output_text"))
                      contents)).
Proof.
  revert texts. induction contents as [|c contents IH]; intros texts Hobj.
  - simpl. by rewrite app_nil_r.
  - cbn [forallb] in Hobj. apply andb_prop in Hobj as [Hc Hrest].
    destruct c as [| | | | | |m]; try discriminate.
    rewrite collect_content_cons. cbn [List.filter].
    unfold has_type at 1. cbn [field].
    destruct (m !! py "type") as [ty|] eqn:Ety.
    + destruct (eq_str ty (py "output_text")) eqn:Eq.
      * cbn [List.map]. unfold raw_text_of at 1. cbn [field].
        rewrite IH by done. by rewrite <- app_assoc.
      * by apply IH.
    + change (eq_str JNull (py "output_text")) with false. cbn iota.
      by apply IH.
Qed.

(** The outer loop runs through a concatenation piece by piece. *)
Lemma collect_output_app a b texts :
  collect_output (a ++ b) texts
  = texts' ← collect_output a texts; collect_output b texts'.
Proof.
  revert texts. induction a as [|item a IH]; intros texts; [reflexivity |].
  cbn [app collect_output].
  destruct (py_get item (py "type") JNull) as [ty|e]; [| reflexivity].
  rewrite !bind_Ok.
  destruct (negb (eq_str ty (py "message"))); [apply IH |].
  destruct (py_get item (py "content") (JArr [])) as [c|e]; [| reflexivity].
  rewrite !bind_Ok.
  destruct (py_iter c) as [contents|e]; [| reflexivity].
  rewrite !bind_Ok.
  destruct (collect_content contents texts) as [texts'|e]; [| reflexivity].
  rewrite !bind_Ok. apply IH.
Qed.

(** An object that is no message is passed over. *)
Lemma collect_output_skip item rest texts :
  is_obj item = true ->
  has_type item (py "message") = false ->
  collect_output (item :: rest) texts = collect_output rest texts.
Proof.
  intros Hobj Hty. destruct item as [| | | | | |m]; try discriminate.
  rewrite collect_output_cons. unfold has_type in Hty. cbn [field] in Hty.
  destruct (m !! py "type") as [ty|]; [by rewrite Hty |].
  reflexivity.
Qed.

Lemma collect_output_shaped items texts :
  forallb shaped_item items = true ->
  collect_output items texts
  = Ok (texts ++ List.flat_map item_values items).
Proof.
  revert texts. induction items as [|item items IH]; intros texts Hsh.
  - simpl. by rewrite app_nil_r.
  - cbn [forallb] in Hsh. apply andb_prop in Hsh as [Hi Hrest].
    unfold shaped_item in Hi. apply andb_prop in Hi as [Hobj Hcontent].
    cbn [List.flat_map]. unfold item_values at 1.
    destruct (has_type item (py "message")) eqn:Hty.
    + destruct item as [| | | | | |m]; try discriminate.
      rewrite collect_output_cons. unfold has_type in Hty. cbn [field] in *.
      destruct (m !! py "type") as [ty|] eqn:Ety; [| discriminate].
      rewrite Hty. cbn [negb].
      destruct (m !! py "content") as [c|] eqn:Ec.
      * destruct c; try discriminate. cbn [py_iter items_of].
        rewrite bind_Ok, collect_content_shaped by done.
        rewrite bind_Ok, IH by done. by rewrite <- app_assoc.
      * cbn [py_iter items_of List.filter List.map].
        rewrite bind_Ok. cbn [collect_content]. rewrite bind_Ok.
        by rewrite IH.
    + rewrite collect_output_skip by done. by rewrite IH.
Qed.

Lemma extract_shaped response_json :
  shaped_response response_json = true ->
  extract_output_text response_json
  = str_join newline (List.filter truthy (response_values response_json)).
Proof.
  intros Hsh. unfold shaped_response in Hsh.
  apply andb_prop in Hsh as [Hobj Hout].
  destruct response_json as [| | | | | |m]; try discriminate.
  unfold extract_output_text, response_values. cbn [py_get field] in *.
  rewrite bind_Ok.
  destruct (m !! py "output") as [o|] eqn:Eo.
  - destruct o; try discriminate. cbn [py_iter items_of].
    rewrite bind_Ok, collect_output_shaped by done.
    by rewrite bind_Ok.
  - reflexivity.
Qed.

(** [strs_of] fails, with [TypeError], exactly on a value that is no
    string. *)
Lemma strs_of_all_str vs :
  forallb is_str vs = true -> strs_of vs = Ok (strs_only vs).
Proof.
  induction vs as [|v vs IH]; [reflexivity |].
  cbn [forallb]. intros [Hv Hvs]%andb_prop.
  destruct v; try discriminate. cbn [strs_of]. by rewrite IH.
Qed.

Lemma strs_of_not_str vs :
  forallb is_str vs = false -> strs_of vs = Raise TypeError.
Proof.
  induction vs as [|v vs IH]; [discriminate |].
  cbn [forallb]. intros Hv.
  destruct v; try reflexivity. cbn [is_str andb] in Hv.
  cbn [strs_of]. by rewrite IH.
Qed.

Lemma strs_only_filter vs :
  strs_only (List.filter truthy vs) = List.filter nonempty (strs_only vs).
Proof.
  induction vs as [|v vs IH]; [reflexivity |].
  cbn [List.filter].
  destruct v as [| b | z | f | s | items | members]; cbn [strs_only List.flat_map app];
    try (destruct (truthy _); cbn [strs_only List.flat_map app]; exact IH).
  destruct s as [|c s]; cbn [truthy strs_only List.flat_map app List.filter nonempty];
    [exact IH | f_equal; exact IH].
Qed.

Lemma forallb_is_str_filter vs :
  forallb is_str (List.filter truthy vs) = false <->
  exists v, v ∈ vs /\ truthy v = true /\ is_str v = false.
Proof.
  induction vs as [|v vs IH]; cbn [List.filter forallb].
  - split; [done |]. intros (v & Hin & _). by apply elem_of_nil in Hin.
  - destruct (truthy v) eqn:Ht; cbn [forallb].
    + destruct (is_str v) eqn:Hs; cbn [andb].
      * rewrite IH. split.
        -- intros (w & Hin & Hw). exists w. split; [by right | done].
        -- intros (w & [->|Hin]%elem_of_cons & Hwt & Hws); [congruence |].
           by exists w.
      * split; [| done]. intros _. exists v. split; [by left | done].
    + rewrite IH. split.
      * intros (w & Hin & Hw). exists w. split; [by right | done].
      * intros (w & [->|Hin]%elem_of_cons & Hwt & Hws); [congruence |].
        by exists w.
Qed.

Lemma join_not_nil (sep : str) (xs : list str) :
  xs <> [] -> (forall x, x ∈ xs -> x <> []) -> PySeq.join sep xs <> [].
Proof.
  destruct xs as [|x rest]; [done |]. intros _ Hne.
  assert (x <> []) as Hx by (apply Hne; left).
  cbn [PySeq.join]. destruct rest; [done |].
  by destruct x.
Qed.

Lemma filter_nonempty_nil (xs : list str) :
  List.filter nonempty xs = [] <-> forall x, x ∈ xs -> x = [].
Proof.
  induction xs as [|x xs IH]; cbn [List.filter].
  - split; [intros _ x Hx; by apply elem_of_nil in Hx | done].
  - destruct x as [|c x]; cbn [nonempty].
    + rewrite IH. split.
      * intros H x [->|Hx]%elem_of_cons; [done | by apply H].
      * intros H x Hx. apply H. by right.
    + split; [done |]. intros H. specialize (H (c :: x)).
      discriminate H. left.
Qed.

Lemma extract_wf response_json :
  wf_response response_json = true ->
  extract_output_text response_json
  = Ok (PySeq.join newline (List.filter nonempty (spec_fragments response_json))).
Proof.
  intros Hwf. unfold wf_response in Hwf. apply andb_prop in Hwf as [Hobj Hout].
  destruct response_json as [| | | | | |m]; try discriminate.
  unfold extract_output_text, spec_fragments. cbn [py_get field] in *.
  rewrite bind_Ok.
  destruct (m !! py "output") as [o|] eqn:Eo.
  - destruct o; try discriminate. cbn [py_iter items_of].
    rewrite bind_Ok, collect_output_wf by done.
    rewrite bind_Ok. unfold str_join.
    by rewrite app_nil_l, filter_truthy_strs, strs_of_strs.
  - reflexivity.
Qed.
Lemma all_truthy_str vs :
  forallb (fun v => implb (truthy v) (is_str v)) vs = true ->
  forall v, v ∈ vs -> truthy v = true -> is_str v = true.
Proof.
  rewrite forallb_forall. intros Hall v Hin Ht.
  specialize (Hall v (proj1 (list_elem_of_In _ _) Hin)). by rewrite Ht in Hall.
Qed.
End ExtractMoreFacts.

(** X3: on a body on which no [.get] and no loop fails,
    [extract_output_text] raises [TypeError] exactly when some
    ["output_text"] entry of a message has a ["text"] that is truthy and no
    string (a number other than 0, [true], a non-empty list or object);
    otherwise it returns the newline-joined non-empty strings, and a
    ["text"] that is [null], [false], [0] or an empty container is passed
    over like an empty string. *)
Theorem extract_output_text_texts_by_type (response_json : json) :
  shaped_response response_json = true ->
  (extract_output_text response_json = Raise TypeError <->
   exists v, v ∈ response_values response_json /\
             truthy v = true /\ is_str v = false) /\
  ((forall v, v ∈ response_values response_json ->
              truthy v = true -> is_str v = true) ->
   extract_output_text response_json
   = Ok (PySeq.join newline
           (List.filter nonempty (strs_only (response_values response_json))))).
Proof.
  intros Hsh. rewrite (ExtractMoreFacts.extract_shaped _ Hsh). unfold str_join.
  pose proof (ExtractMoreFacts.forallb_is_str_filter
                (response_values response_json)) as Hex.
  destruct (forallb is_str (List.filter truthy (response_values response_json)))
    eqn:Hall.
  - rewrite ExtractMoreFacts.strs_of_all_str by done.
    rewrite ExtractFacts.bind_Ok, ExtractMoreFacts.strs_only_filter.
    split; [| done]. split; [done |]. intros H. by apply Hex in H.
  - rewrite ExtractMoreFacts.strs_of_not_str by done.
    split; [split; [intros _; by apply Hex | done] |].
    intros Hstr. destruct (proj1 Hex eq_refl) as (v & Hin & Ht & Hs).
    rewrite (Hstr v Hin Ht) in Hs. discriminate.
Qed.

Lemma extract_output_text_texts_by_type_witness :
  extract_output_text mixed_response = Ok (py "A" ++ newline ++ py "B") /\
  extract_output_text number_response = Raise TypeError.
Proof.
  split.
  - apply (proj2 (extract_output_text_texts_by_type mixed_response eq_refl)).
    by apply ExtractMoreFacts.all_truthy_str.
  - apply (proj1 (extract_output_text_texts_by_type number_response eq_refl)).
    exists (JInt 5). split; [| done]. apply list_elem_of_In. by left.
Defined.

(** X4: on a body of the documented shape the extracted text is empty,
    which is what sends the display to its raw-response fallback, exactly
    when every fragment is empty (in particular when there is none). *)
Theorem extract_output_text_empty_iff (response_json : json) :
  wf_response response_json = true ->
  (extract_output_text response_json = Ok []
   <-> forall s, s ∈ spec_fragments response_json -> s = []).
Proof.
  intros Hwf. rewrite (ExtractMoreFacts.extract_wf _ Hwf).
  rewrite <- ExtractMoreFacts.filter_nonempty_nil. split.
  - intros [= Hjoin].
    destruct (List.filter nonempty (spec_fragments response_json))
      as [|x xs] eqn:Hf; [done |].
    exfalso. revert Hjoin. apply ExtractMoreFacts.join_not_nil; [done |].
    intros y Hy. rewrite <- Hf in Hy.
    apply list_elem_of_In, List.filter_In in Hy as [_ Hy]. by destruct y.
  - by intros ->.
Qed.

Lemma extract_output_text_empty_iff_witness :
  extract_output_text silent_response = Ok [].
Proof.
  apply (proj2 (extract_output_text_empty_iff silent_response eq_refl)).
  intros s Hs. apply list_elem_of_In in Hs. by destruct Hs as [<-|[]].
Defined.

(** X5: an output item that is an object of another type than ["message"]
    (a reasoning item, a tool call) changes nothing: the text, or the
    exception, is the one of the body without that item, whatever the other
    items are. *)
Theorem extract_output_text_skips_items
    (members : gmap str json) (pre post : list json) (item : json) :
  members !! py "output" = Some (JArr (pre ++ item :: post)) ->
  is_obj item = true ->
  has_type item (py "message") = false ->
  extract_output_text (JObj members)
  = extract_output_text (JObj (<[py "output" := JArr (pre ++ post)]> members)).
Proof.
  intros Hout Hobj Hty. unfold extract_output_text. cbn [py_get].
  rewrite Hout, lookup_insert_eq, !ExtractFacts.bind_Ok. cbn [py_iter].
  rewrite !ExtractFacts.bind_Ok, !ExtractMoreFacts.collect_output_app.
  destruct (collect_output pre []) as [texts|e]; [| reflexivity].
  rewrite !ExtractFacts.bind_Ok.
  by rewrite ExtractMoreFacts.collect_output_skip.
Qed.

Lemma extract_output_text_skips_items_witness :
  extract_output_text sample_response
  = extract_output_text
      (JObj (<[py "output" := JArr [sample_message]]> sample_members)).
Proof.
  exact (extract_output_text_skips_items sample_members [] [sample_message]
           (dict [(py "type", JStr (py "reasoning"))])
           eq_refl eq_refl eq_refl).
Defined.

(** ** More about the API client *)

Module StripFacts.

Lemma lstrip_app_keep (x : str) (c : N) :
  is_space c = false -> lstrip (x ++ [c]) = lstrip x ++ [c].
Proof.
  intros Hc. induction x as [|d x IH]; cbn [app lstrip].
  - by rewrite Hc.
  - by destruct (is_space d).
Qed.

(** Nothing is stripped at the end of a text that ends in a character
    that is no whitespace. *)
Lemma strip_app_keep (x : str) (c : N) :
  is_space c = false -> strip (x ++ [c]) = lstrip x ++ [c].
Proof.
  intros Hc. unfold strip, rstrip. rewrite lstrip_app_keep by done.
  rewrite rev_app_distr. cbn [rev app lstrip]. rewrite Hc.
  change (c :: rev (lstrip x)) with (rev [c] ++ rev (lstrip x)).
  by rewrite <- rev_app_distr, rev_involutive.
Qed.

Lemma lstrip_app_first (c : N) (x y : str) :
  is_space c = false -> lstrip ((c :: x) ++ y) = (c :: x) ++ y.
Proof. intros Hc. cbn [app lstrip]. by rewrite Hc. Qed.
End StripFacts.

(** X6: the credential check reports a key as valid only when the key is
    not empty and the models endpoint answered with a response that is ok:
    never on an empty key, on a raised request, or on a status from 400 to
    599.  For an empty key the answer is ["Missing API key"] and does not
    depend on the network. *)
Theorem validate_api_key_valid_iff
    (requests_get : str -> list (str * str) -> outcome) (api_key : str) :
  (fst (validate_api_key requests_get api_key) = true <->
   api_key <> [] /\
   exists resp,
     requests_get (OPENAI_API_BASE ++ py "/models") (bearer api_key)
     = Responded resp /\ ok resp = true) /\
  (api_key = [] ->
   forall other_get : str -> list (str * str) -> outcome,
     validate_api_key other_get api_key = (false, py "Missing API key")).
Proof.
  split.
  - unfold validate_api_key. destruct api_key as [|c key].
    { split; [done | by intros [? _]]. }
    destruct (requests_get _ _) as [resp|msg].
    + destruct (ok resp) eqn:Hok.
      * split; [intros _; split; [done | by exists resp] | done].
      * split.
        -- by destruct (status_code resp =? 401).
        -- intros [_ (r & [= <-] & Hr)]. congruence.
    + split; [done |]. by intros [_ (r & [=] & _)].
  - by intros -> other_get.
Qed.

(** X7: [call_openai] returns a value exactly when the POST was answered
    with a response that is ok and whose body decodes to that value.  On
    an ok response it behaves as [resp.json()], so a body that is no JSON
    makes it raise the decoder's exception, not the [RuntimeError] with the
    diagnostic; a request that raises makes it raise that exception. *)
Theorem call_openai_result_iff
    (requests_post : str -> list (str * str) -> json -> outcome)
    (py_repr : json -> str)
    (api_key system_prompt user_prompt image_url : str) :
  (forall v,
      call_openai requests_post py_repr api_key system_prompt user_prompt
        image_url = Ok v
      <-> exists resp,
            requests_post (OPENAI_API_BASE ++ py "/responses") (bearer api_key)
              (payload system_prompt user_prompt image_url) = Responded resp /\
            ok resp = true /\ json_body resp = Ok v) /\
  (forall resp,
      requests_post (OPENAI_API_BASE ++ py "/responses") (bearer api_key)
        (payload system_prompt user_prompt image_url) = Responded resp ->
      ok resp = true ->
      call_openai requests_post py_repr api_key system_prompt user_prompt
        image_url = json_body resp) /\
  (forall msg,
      requests_post (OPENAI_API_BASE ++ py "/responses") (bearer api_key)
        (payload system_prompt user_prompt image_url) = Failed msg ->
      call_openai requests_post py_repr api_key system_prompt user_prompt
        image_url = Raise (RequestException msg)).
Proof.
  unfold call_openai.
  destruct (requests_post _ _ _) as [resp|msg].
  - split; [| split].
    + intros v. destruct (ok resp) eqn:Hok; cbn [negb].
      * split; [intros Hv; by exists resp |]. by intros (r & [= <-] & _ & Hv).
      * split; [done |]. intros (r & [= <-] & Hr & _). congruence.
    + intros r [= <-] ->. reflexivity.
    + intros msg [=].
  - split; [| split].
    + intros v. split; [done |]. by intros (r & [=] & _).
    + intros r [=].
    + by intros m [= <-].
Qed.

(** X8: of the text ["<message> (type=<type>, code=<code>)"] built from
    the error object of a body, [strip] removes the leading whitespace of
    the message and nothing else, since the text ends in [")"].  A message
    that begins with a character that is no whitespace is reproduced
    verbatim; an absent or empty message leaves ["(type=..., code=...)"]. *)
Theorem error_detail_strips_only_the_front
    (py_repr : json -> str) (resp : Response)
    (body err : gmap str json) :
  json_body resp = Ok (JObj body) ->
  body !! py "error" = Some (JObj err) ->
  error_detail py_repr resp
  = Ok (lstrip (py_format py_repr (member err (py "message")) ++ py " (type="
                ++ py_format py_repr (member err (py "type")) ++ py ", code="
                ++ py_format py_repr (member err (py "code"))) ++ py ")") /\
  (forall c message,
      err !! py "message" = Some (JStr (c :: message)) ->
      is_space c = false ->
      error_detail py_repr resp
      = Ok ((c :: message) ++ py " (type="
            ++ py_format py_repr (member err (py "type")) ++ py ", code="
            ++ py_format py_repr (member err (py "code")) ++ py ")")) /\
  (err !! py "message" = None \/ err !! py "message" = Some (JStr []) ->
   error_detail py_repr resp
   = Ok (py "(type=" ++ py_format py_repr (member err (py "type"))
         ++ py ", code=" ++ py_format py_repr (member err (py "code"))
         ++ py ")")).
Proof.
  intros Hbody Herr.
  rewrite (CallFacts.error_detail_object py_repr resp body err Hbody Herr).
  unfold structured_detail.
  set (ty := py_format py_repr (member err (py "type"))).
  set (code := py_format py_repr (member err (py "code"))).
  assert (forall m : str,
             strip (m ++ py " (type=" ++ ty ++ py ", code=" ++ code ++ py ")")
             = lstrip (m ++ py " (type=" ++ ty ++ py ", code=" ++ code)
               ++ py ")") as Hstrip.
  { intros m.
    replace (m ++ py " (type=" ++ ty ++ py ", code=" ++ code ++ py ")")
      with ((m ++ py " (type=" ++ ty ++ py ", code=" ++ code) ++ [41%N])
      by (by rewrite <- !app_assoc).
    by apply StripFacts.strip_app_keep. }
  rewrite Hstrip. split; [reflexivity |]. split.
  - intros c message Hm Hc. unfold member at 1. rewrite Hm. cbn [py_format].
    rewrite StripFacts.lstrip_app_first by done.
    by rewrite <- !app_assoc.
  - intros Hm. assert (member err (py "message") = JStr []) as ->.
    { unfold member. by destruct Hm as [-> | ->]. }
    cbn [py_format app]. change (py " (type=") with (32%N :: py "(type=").
    cbn [app lstrip]. change (is_space 32) with true. cbn iota.
    change (py "(type=") with (40%N :: py "type="). cbn [app lstrip].
    change (is_space 40) with false. cbn iota.
    change (py "(type=") with (40%N :: py "type="). cbn [app].
    do 2 f_equal. by rewrite <- !app_assoc.
Qed.

Lemma error_detail_strips_only_the_front_witness :
  error_detail sample_repr quota_resp
  = Ok (py "You exceeded your current quota. (type=insufficient_quota, code=None)").
Proof.
  apply (proj1 (proj2 (error_detail_strips_only_the_front sample_repr quota_resp
                         _ _ eq_refl eq_refl))
           89%N (py "ou exceeded your current quota.")); reflexivity.
Defined.

(** ** More about the result display *)

Module DisplayFacts.

Lemma missing_of_supported fields parsed :
  supports_in parsed = true -> exists absent, missing_of fields parsed = Ok absent.
Proof.
  intros Hs. induction fields as [|k fields [absent IH]]; [by eexists |].
  cbn [missing_of]. rewrite IH.
  destruct parsed; try discriminate; cbn [py_in];
    rewrite !ExtractFacts.bind_Ok; by eexists.
Qed.

Lemma missing_of_unsupported k fields parsed :
  supports_in parsed = false -> missing_of (k :: fields) parsed = Raise TypeError.
Proof. intros Hs. by destruct parsed. Qed.

Lemma missing_supported parsed :
  supports_in parsed = true -> exists absent, missing parsed = Ok absent.
Proof. apply missing_of_supported. Qed.

Lemma missing_unsupported parsed :
  supports_in parsed = false -> missing parsed = Raise TypeError.
Proof. intros Hs. by destruct parsed. Qed.

Lemma filter_absent_nil (members : gmap str json) fields :
  List.filter (absent_in members) fields = [] <->
  forall k, k ∈ fields -> is_Some (members !! k).
Proof.
  induction fields as [|k fields IH]; cbn [List.filter].
  - split; [intros _ k Hk; by apply elem_of_nil in Hk | done].
  - unfold absent_in at 1. destruct (members !! k) eqn:E.
    + rewrite IH. split.
      * intros H k' [->|Hk']%elem_of_cons; [by eexists | by apply H].
      * intros H k' Hk'. apply H. by right.
    + split; [done |]. intros H. destruct (H k) as [x Hx]; [by left |].
      congruence.
Qed.
End DisplayFacts.

(** X9: for a decoded object the display raises nothing, shows the object
    and offers its serialization for download; it warns exactly when a
    required key is absent, and then the warning lists the absent keys,
    and only those, in the order of the required list.  An object that
    holds all nine keys gets the object and the download button and no
    warning. *)
Theorem show_parsed_object (json_dumps : json -> str) (members : gmap str json) :
  ((forall k, k ∈ required_fields -> is_Some (members !! k)) <->
   show_parsed json_dumps (JObj members)
   = ([st_json (JObj members); download_json (json_dumps (JObj members))],
      Ok ())) /\
  ((exists k, k ∈ required_fields /\ members !! k = None) ->
   exists absent,
     absent <> [] /\
     (forall k : str,
        k ∈ absent <-> k ∈ required_fields /\ members !! k = None) /\
     show_parsed json_dumps (JObj members)
     = ([st_json (JObj members);
         st_warning (py "JSON missing required fields: "
                     ++ PySeq.join (py ", ") absent);
         download_json (json_dumps (JObj members))], Ok ())).
Proof.
  unfold show_parsed, missing. rewrite MissingFacts.missing_of_obj.
  pose proof (DisplayFacts.filter_absent_nil members required_fields) as Hnil.
  destruct (List.filter (absent_in members) required_fields)
    as [|a absent] eqn:Hf.
  - split.
    + split; [done |]. intros _. by apply Hnil.
    + intros (k & Hk & Hnone). destruct (proj1 Hnil eq_refl k Hk). congruence.
  - split.
    + split; [| done]. intros Hall. by apply Hnil in Hall.
    + intros _. exists (a :: absent). split; [done |]. split; [| done].
      intros k. rewrite <- Hf, !list_elem_of_In, List.filter_In.
      unfold absent_in. destruct (members !! k); split; intros [? ?]; done.
Qed.

Lemma show_parsed_object_witness :
  show_parsed sample_dumps (JObj complete_answer)
  = ([st_json (JObj complete_answer);
      download_json (sample_dumps (JObj complete_answer))], Ok ()).
Proof.
  apply (proj1 (show_parsed_object sample_dumps complete_answer)).
  intros k Hk. apply list_elem_of_In in Hk.
  repeat (destruct Hk as [<-|Hk]; [by eexists |]).
  destruct Hk.
Defined.

(** X10: when the stored text decodes, the display raises [TypeError]
    exactly when the decoded value is [null], a boolean or a number: it
    has shown the value by then, and offers no download.  For an object, a
    list or a string it raises nothing. *)
Theorem show_last_result_type_error
    (json_loads : str -> result json) (json_dumps : json -> str)
    (st : session_state) (output_text : str) (parsed : json) :
  last_output_text st = Some output_text ->
  output_text <> [] ->
  json_loads output_text = Ok parsed ->
  (supports_in parsed = false ->
   show_last_result json_loads json_dumps st = ([st_json parsed], Raise TypeError)) /\
  (supports_in parsed = true ->
   snd (show_last_result json_loads json_dumps st) = Ok ()) /\
  (snd (show_last_result json_loads json_dumps st) = Raise TypeError
   <-> supports_in parsed = false).
Proof.
  intros Hst Hne Hloads. unfold show_last_result. rewrite Hst.
  destruct output_text as [|c t]; [done |]. rewrite Hloads.
  unfold show_parsed.
  destruct (supports_in parsed) eqn:Hs.
  - destruct (DisplayFacts.missing_supported parsed Hs) as [absent ->].
    split; [done |]. split; [done |]. split; [done | done].
  - rewrite (DisplayFacts.missing_unsupported parsed Hs).
    split; [done |]. split; [done |]. split; done.
Qed.

Lemma show_last_result_type_error_witness :
  show_last_result five_loads sample_dumps number_session
  = ([st_json (JInt 5)], Raise TypeError).
Proof.
  exact (proj1 (show_last_result_type_error five_loads sample_dumps
                  number_session (py "5") (JInt 5)
                  eq_refl ltac:(discriminate) eq_refl) eq_refl).
Defined.

(** X11: whatever the display offers for download is the serialization of
    the value it decoded from the stored text, under the fixed label, file
    name and media type; without a successful decode of a non-empty text
    there is no download button. *)
Theorem download_is_dump_of_decoded
    (json_loads : str -> result json) (json_dumps : json -> str)
    (st : session_state) (label data file_name mime : str) :
  st_download_button label data file_name mime
    ∈ fst (show_last_result json_loads json_dumps st) ->
  exists output_text parsed,
    last_output_text st = Some output_text /\
    output_text <> [] /\
    json_loads output_text = Ok parsed /\
    supports_in parsed = true /\
    st_json parsed ∈ fst (show_last_result json_loads json_dumps st) /\
    data = json_dumps parsed /\
    label = py "Download JSON" /\
    file_name = py "extraction.json" /\
    mime = py "application/json".
Proof.
  unfold show_last_result.
  destruct (last_output_text st) as [output_text|] eqn:Hst;
    [| by intros ?%elem_of_nil].
  destruct output_text as [|c t].
  { intros [?|[?|?%elem_of_nil]%elem_of_cons]%elem_of_cons; done. }
  destruct (json_loads (c :: t)) as [parsed|e] eqn:Hloads.
  2:{ destruct e; cbn [fst];
        intros H; repeat (apply elem_of_cons in H as [H|H]; [done |]);
        by apply elem_of_nil in H. }
  unfold show_parsed.
  destruct (supports_in parsed) eqn:Hs.
  - destruct (DisplayFacts.missing_supported parsed Hs) as [absent ->].
    cbn [fst]. intros Hin. exists (c :: t), parsed.
    split; [done |]. split; [done |]. split; [done |]. split; [done |].
    split; [by left |].
    apply elem_of_cons in Hin as [Hin|Hin]; [done |].
    apply elem_of_app in Hin as [Hin|Hin].
    + destruct absent; [by apply elem_of_nil in Hin |].
      apply elem_of_cons in Hin as [Hin|Hin]; [done |].
      by apply elem_of_nil in Hin.
    + apply elem_of_cons in Hin as [Hin|Hin]; [| by apply elem_of_nil in Hin].
      by injection Hin as -> -> -> ->.
  - rewrite (DisplayFacts.missing_unsupported parsed Hs). cbn [fst].
    intros [?|?%elem_of_nil]%elem_of_cons; done.
Qed.

Lemma download_is_dump_of_decoded_witness :
  exists output_text parsed,
    last_output_text empty_object_session = Some output_text /\
    output_text <> [] /\
    sample_loads output_text = Ok parsed /\
    supports_in parsed = true /\
    st_json parsed
      ∈ fst (show_last_result sample_loads sample_dumps empty_object_session) /\
    py "{}" = sample_dumps parsed /\
    py "Download JSON" = py "Download JSON" /\
    py "extraction.json" = py "extraction.json" /\
    py "application/json" = py "application/json".
Proof.
  apply (download_is_dump_of_decoded sample_loads sample_dumps
           empty_object_session).
  apply list_elem_of_In. vm_compute. right. right. left. reflexivity.
Defined.

(** ** The input stage *)

Module LoadFacts.

Lemma py_app_not_nil (c : N) (s t u : str) :
  s = c :: t -> s ++ u <> [].
Proof. by intros ->. Qed.

Lemma has_image_data_url mime payload :
  has_image (Some (data_url mime payload)) = true.
Proof.
  unfold data_url. by change (py "data:") with (100%N :: py "ata:").
Qed.

(** The two ways [fetch_image_url] returns. *)
Lemma fetch_image_url_cases requests_get url :
  (exists resp mime,
     requests_get url [] = Responded resp /\ ok resp = true /\
     content_type_header resp = Some mime /\
     PySeq.startswith (py "image/") mime = true /\
     fetch_image_url requests_get url
     = (Some (content resp), Some mime, None)) \/
  (exists err,
     fetch_image_url requests_get url = (None, None, Some err) /\
     (err = [] -> requests_get url [] = Failed [])).
Proof.
  unfold fetch_image_url.
  destruct (requests_get url []) as [resp|msg].
  - destruct (ok resp) eqn:Hok; cbn [negb].
    + destruct (content_type_header resp) as [mime|] eqn:Hct.
      * destruct (PySeq.startswith (py "image/") mime) eqn:Hsw; cbn [negb].
        -- left. by exists resp, mime.
        -- right. eexists. split; [done |].
           intros H. by apply (py_app_not_nil 85%N _
             (py "RL did not return an image (Content-Type: ")) in H.
      * right. eexists. split; [done |].
        intros H. by apply (py_app_not_nil 85%N _
          (py "RL did not return an image (Content-Type: ")) in H.
    + right. eexists. split; [done |].
      intros H. by apply HttpFacts.http_status_line_not_nil in H.
  - right. exists msg. split; [done |]. by intros ->.
Qed.
End LoadFacts.

(** X12: whenever the input stage yields an image reference, the
    reference is a data URL that carries the very bytes handed to
    [st.image], [st.image] has rendered them, and the run is offered; in
    upload mode the bytes are the non-empty content of the file, in URL
    mode they are the content of an ok response to a GET of the normalized
    URL whose [Content-Type], the media type of the reference, begins with
    ["image/"]. *)
Theorem load_image_yields_data_url
    (requests_get : str -> list (str * str) -> outcome)
    (image_error : option (list byte) -> option exn)
    (input : image_input) (image_data_url : str) :
  snd (load_image requests_get image_error input) = Ok (Some image_data_url) ->
  has_image (Some image_data_url) = true /\
  exists mime bytes,
    image_data_url = data_url mime (Base64.b64encode bytes) /\
    image_error (Some bytes) = None /\
    match input with
    | UploadFile uploaded_file =>
        exists f, uploaded_file = Some f /\ bytes = read f /\ bytes <> []
    | ImageURL url =>
        exists resp,
          requests_get (normalize_drive_url url) [] = Responded resp /\
          ok resp = true /\
          bytes = content resp /\
          content_type_header resp = Some mime /\
          PySeq.startswith (py "image/") mime = true
    end.
Proof.
  destruct input as [[f|]|[|c u]]; cbn [load_image]; try discriminate.
  - destruct (image_error (Some (read f))) as [e|] eqn:Himg; [discriminate |].
    cbn [snd file_to_data_url].
    destruct (read f) as [|b bytes] eqn:Hread; [discriminate |].
    intros [= <-]. split; [apply LoadFacts.has_image_data_url |].
    eexists _, (b :: bytes). split; [reflexivity |]. split; [done |].
    exists f. by rewrite Hread.
  - destruct (LoadFacts.fetch_image_url_cases requests_get
                (normalize_drive_url (c :: u)))
      as [(resp & mime & Hget & Hok & Hct & Hsw & ->)|(err & -> & _)].
    + destruct (image_error (Some (content resp))) as [e|] eqn:Himg;
        [discriminate |].
      cbn [snd]. intros [= <-].
      split; [apply (LoadFacts.has_image_data_url mime) |].
      exists mime, (content resp). split; [reflexivity |]. split; [done |].
      by exists resp.
    + destruct err as [|e msg]; [| discriminate].
      destruct (image_error None); discriminate.
Qed.

Lemma load_image_yields_data_url_witness :
  has_image (Some sample_data_url) = true /\
  exists mime bytes,
    sample_data_url = data_url mime (Base64.b64encode bytes) /\
    renders_all (Some bytes) = None /\
    exists resp,
      always (Responded png_resp) (normalize_drive_url sample_url) []
      = Responded resp /\
      ok resp = true /\
      bytes = content resp /\
      content_type_header resp = Some mime /\
      PySeq.startswith (py "image/") mime = true.
Proof.
  apply (load_image_yields_data_url (always (Responded png_resp)) renders_all
           (ImageURL sample_url) sample_data_url).
  reflexivity.
Defined.

(** X13: the input stage shows an error only in URL mode, only for a
    non-empty error text of [fetch_image_url] on the normalized URL, which
    it shows behind ["Image preview failed: "]; it then shows nothing
    else, raises nothing and yields no image reference, so that no run is
    offered. *)
Theorem load_image_error_shown
    (requests_get : str -> list (str * str) -> outcome)
    (image_error : option (list byte) -> option exn)
    (input : image_input) (msg : str) :
  st_error msg ∈ fst (load_image requests_get image_error input) ->
  load_image requests_get image_error input = ([st_error msg], Ok None) /\
  has_image None = false /\
  exists url err,
    input = ImageURL url /\ url <> [] /\ err <> [] /\
    fetch_image_url requests_get (normalize_drive_url url)
    = (None, None, Some err) /\
    msg = py "Image preview failed: " ++ err.
Proof.
  destruct input as [[f|]|[|c u]]; cbn [load_image].
  - destruct (image_error (Some (read f))); cbn [fst].
    + by intros ?%elem_of_nil.
    + intros [?|?%elem_of_nil]%elem_of_cons; done.
  - by intros ?%elem_of_nil.
  - by intros ?%elem_of_nil.
  - destruct (LoadFacts.fetch_image_url_cases requests_get
                (normalize_drive_url (c :: u)))
      as [(resp & mime & Hget & Hok & Hct & Hsw & Hfetch)|(err & Hfetch & _)];
      rewrite Hfetch.
    + destruct (image_error (Some (content resp))); cbn [fst].
      * by intros ?%elem_of_nil.
      * intros [?|?%elem_of_nil]%elem_of_cons; done.
    + destruct err as [|e err].
      * destruct (image_error None); cbn [fst].
        -- by intros ?%elem_of_nil.
        -- intros [?|?%elem_of_nil]%elem_of_cons; done.
      * cbn [fst].
        intros [[= ->]|?%elem_of_nil]%elem_of_cons; [| done].
        split; [done |]. split; [done |].
        by exists (c :: u), (e :: err).
Qed.

Lemma load_image_error_shown_witness :
  load_image (always (Failed (py "timed out"))) renders_all (ImageURL sample_url)
  = ([st_error (py "Image preview failed: timed out")], Ok None).
Proof.
  apply (load_image_error_shown (always (Failed (py "timed out"))) renders_all
           (ImageURL sample_url) (py "Image preview failed: timed out")).
  apply list_elem_of_In. left. reflexivity.
Defined.

(** X14: when the GET of the image raises an exception whose text is
    empty, the input stage reports no error: the script is left by an
    exception, that of [st.image] or the [TypeError] of
    [base64.b64encode(None)]. *)
Theorem load_image_empty_exception_text
    (requests_get : str -> list (str * str) -> outcome)
    (image_error : option (list byte) -> option exn) (url : str) :
  url <> [] ->
  requests_get (normalize_drive_url url) [] = Failed [] ->
  (forall msg,
     st_error msg ∉ fst (load_image requests_get image_error (ImageURL url))) /\
  snd (load_image requests_get image_error (ImageURL url))
  = Raise (match image_error None with Some e => e | None => TypeError end).
Proof.
  intros Hurl Hget. destruct url as [|c u]; [done |].
  cbn [load_image]. unfold fetch_image_url. rewrite Hget.
  destruct (image_error None) as [e|]; cbn [fst snd].
  - split; [| done]. by intros msg ?%elem_of_nil.
  - split; [| done]. intros msg [?|?%elem_of_nil]%elem_of_cons; done.
Qed.

Lemma load_image_empty_exception_text_witness :
  snd (load_image (always (Failed [])) renders_all (ImageURL sample_url))
  = Raise TypeError.
Proof.
  apply (load_image_empty_exception_text (always (Failed [])) renders_all
           sample_url).
  - discriminate.
  - reflexivity.
Defined.

(** ** The run stage and the page *)

Module RunFacts.
Section facts.
Variable requests_post : str -> list (str * str) -> json -> outcome.
Variable py_repr : json -> str.
Variable exc_text : exn -> str.
Variables system_prompt user_prompt : str.

Local Abbreviation run_stage' :=
  (run_stage requests_post py_repr exc_text system_prompt user_prompt).

(** Every way the run stage ends. *)
Lemma run_stage_cases api_key image_data_url run_clicked st :
  (has_image image_data_url = false /\
   run_stage' api_key image_data_url run_clicked st = ([], st, Ok Continue)) \/
  (has_image image_data_url = true /\ run_clicked = false /\
   run_stage' api_key image_data_url run_clicked st = (offer, st, Ok Continue)) \/
  (has_image image_data_url = true /\ run_clicked = true /\
   exists msg,
     run_stage' api_key image_data_url run_clicked st
     = (offer ++ [st_error msg], st, Ok Stop)) \/
  (has_image image_data_url = true /\ run_clicked = true /\
   exists u response_json,
     image_data_url = Some u /\ api_key <> [] /\ system_prompt <> [] /\
     call_openai requests_post py_repr api_key system_prompt user_prompt u
     = Ok response_json /\
     ((exists e,
         extract_output_text response_json = Raise e /\
         run_stage' api_key image_data_url run_clicked st = (offer, st, Raise e)) \/
      (exists output_text,
         extract_output_text response_json = Ok output_text /\
         run_stage' api_key image_data_url run_clicked st
         = (offer, fresh_session response_json output_text, Ok Continue)))).
Proof.
  unfold run_stage.
  destruct (has_image image_data_url) eqn:Himg; cbn [negb]; [| by left].
  right. destruct run_clicked; cbn [negb]; [| by left].
  right. destruct api_key as [|k api_key]; [left; by eauto |].
  destruct system_prompt as [|p prompt] eqn:Hprompt; [left; by eauto |].
  destruct image_data_url as [[|c u]|]; try discriminate.
  destruct (call_openai requests_post py_repr (k :: api_key) (p :: prompt)
              user_prompt (c :: u)) as [response_json|e] eqn:Hcall;
    [| left; by eauto].
  right. split; [done |]. split; [done |].
  exists (c :: u), response_json.
  split; [done |]. split; [done |]. split; [done |]. split; [done |].
  destruct (extract_output_text response_json) as [output_text|e] eqn:Hext.
  - right. by exists output_text.
  - left. by exists e.
Qed.
End facts.

(** The input stage shows no widget of the result display, and what it
    yields can be run. *)
Lemma load_image_not_shown requests_get image_error input w :
  shown w ∉ fst (load_image requests_get image_error input).
Proof.
  destruct input as [[f|]|[|c u]]; cbn [load_image].
  - destruct (image_error (Some (read f))); cbn [fst].
    + by intros ?%elem_of_nil.
    + intros [?|?%elem_of_nil]%elem_of_cons; done.
  - by intros ?%elem_of_nil.
  - by intros ?%elem_of_nil.
  - destruct (fetch_image_url requests_get (normalize_drive_url (c :: u)))
      as [[data content_type] [[|e err]|]]; cbn [fst].
    2:{ intros [?|?%elem_of_nil]%elem_of_cons; done. }
    all: destruct (image_error data); cbn [fst];
      [by intros ?%elem_of_nil |];
      destruct data; cbn [fst];
      intros [?|?%elem_of_nil]%elem_of_cons; done.
Qed.

Lemma load_image_has_image requests_get image_error input u :
  snd (load_image requests_get image_error input) = Ok (Some u) ->
  has_image (Some u) = true.
Proof.
  destruct input as [[f|]|[|c url]]; cbn [load_image]; try discriminate.
  - destruct (image_error (Some (read f))); [discriminate |].
    cbn [snd file_to_data_url]. destruct (read f); [discriminate |].
    intros [= <-]. apply LoadFacts.has_image_data_url.
  - destruct (fetch_image_url requests_get (normalize_drive_url (c :: url)))
      as [[data content_type] [[|e err]|]]; try discriminate.
    all: destruct (image_error data); [discriminate |];
      destruct data; [| discriminate];
      cbn [snd]; intros [= <-];
      apply (LoadFacts.has_image_data_url
               (match content_type with Some t => t | None => py "None" end)).
Qed.

Lemma not_shown_app (w : widget) (ev1 ev2 : list page_event) :
  shown w ∉ ev1 -> shown w ∉ ev2 -> shown w ∉ ev1 ++ ev2.
Proof. intros H1 H2 [?|?]%elem_of_app; auto. Qed.

Lemma not_shown_offer (w : widget) (msg : str) :
  shown w ∉ offer ++ [st_error msg].
Proof.
  intros H. repeat (apply elem_of_cons in H as [H|H]; [done |]).
  by apply elem_of_nil in H.
Qed.
End RunFacts.



(** X16: without an image reference, without a click, with an empty key
    or with an empty system prompt the run stage sends nothing: what it
    shows, the session it leaves and how the script goes on are the same
    for every remote end, and the session is the one it found.  When the
    run was clicked on an image with an empty key, it shows ["OpenAI API
    key is required."] and stops the script. *)
Theorem run_stage_without_request
    (post1 post2 : str -> list (str * str) -> json -> outcome)
    (repr1 repr2 : json -> str) (exc_text : exn -> str)
    (system_prompt user_prompt api_key : str) (image_data_url : option str)
    (run_clicked : bool) (st : session_state) :
  has_image image_data_url = false \/ run_clicked = false \/
  api_key = [] \/ system_prompt = [] ->
  run_stage post1 repr1 exc_text system_prompt user_prompt
    api_key image_data_url run_clicked st
  = run_stage post2 repr2 exc_text system_prompt user_prompt
      api_key image_data_url run_clicked st /\
  snd (fst (run_stage post1 repr1 exc_text system_prompt user_prompt
              api_key image_data_url run_clicked st)) = st /\
  (has_image image_data_url = true -> run_clicked = true -> api_key = [] ->
   run_stage post1 repr1 exc_text system_prompt user_prompt
     api_key image_data_url run_clicked st
   = (offer ++ [st_error (py "OpenAI API key is required.")], st, Ok Stop)).
Proof.
  intros H. unfold run_stage.
  destruct (has_image image_data_url) eqn:Himg; cbn [negb]; [| done].
  destruct run_clicked; cbn [negb]; [| done].
  destruct api_key as [|k api_key]; [done |].
  destruct system_prompt as [|p prompt]; [done |].
  by destruct H as [?|[?|[?|?]]].
Qed.

Lemma run_stage_without_request_witness :
  run_stage (always_post (Responded answer_resp)) sample_repr sample_exc_text
    (py "S") (py "U") [] (Some sample_data_url) true earlier_session
  = (offer ++ [st_error (py "OpenAI API key is required.")],
     earlier_session, Ok Stop).
Proof.
  refine (proj2 (proj2 (run_stage_without_request
            (always_post (Responded answer_resp))
            (always_post (Failed [])) sample_repr sample_repr sample_exc_text
            (py "S") (py "U") [] (Some sample_data_url) true earlier_session
            _)) eq_refl eq_refl eq_refl).
  right. right. left. reflexivity.
Defined.

(** X17: a run whose POST is answered with an error status, or raises,
    shows the message of the exception behind ["API call failed: "] and
    stops the script with the session as it was: for an error status the
    line [HTTP <status> <reason>: <detail><hint>], for a transport failure
    the text of the exception. *)
Theorem run_stage_reports_failure
    (requests_post : str -> list (str * str) -> json -> outcome)
    (py_repr : json -> str) (exc_text : exn -> str)
    (system_prompt user_prompt api_key image_data_url : str)
    (st : session_state) :
  api_key <> [] -> system_prompt <> [] -> image_data_url <> [] ->
  let sent :=
    requests_post (OPENAI_API_BASE ++ py "/responses") (bearer api_key)
      (payload system_prompt user_prompt image_data_url) in
  let run :=
    run_stage requests_post py_repr exc_text system_prompt user_prompt
      api_key (Some image_data_url) true st in
  (forall resp,
     sent = Responded resp -> ok resp = false ->
     run = (offer ++ [st_error (py "API call failed: "
                                ++ diagnostic py_repr resp)], st, Ok Stop)) /\
  (forall msg,
     sent = Failed msg ->
     run = (offer ++ [st_error (py "API call failed: " ++ msg)], st, Ok Stop)).
Proof.
  intros Hkey Hprompt Himg sent run. subst sent run.
  destruct api_key as [|k key]; [done |].
  destruct system_prompt as [|p prompt]; [done |].
  destruct image_data_url as [|c u]; [done |].
  unfold run_stage, call_openai. cbn [has_image negb].
  split.
  - intros resp -> Hok. by rewrite Hok.
  - by intros msg ->.
Qed.

Lemma run_stage_reports_failure_witness :
  run_stage (always_post (Responded quota_resp)) sample_repr sample_exc_text
    (py "S") (py "U") (py "sk-1") (Some sample_data_url) true earlier_session
  = (offer ++ [st_error (py "API call failed: "
                         ++ diagnostic sample_repr quota_resp)],
     earlier_session, Ok Stop).
Proof.
  refine (proj1 (run_stage_reports_failure
            (always_post (Responded quota_resp)) sample_repr sample_exc_text
            (py "S") (py "U") (py "sk-1") sample_data_url earlier_session
            _ _ _) quota_resp eq_refl eq_refl); discriminate.
Defined.

(** X18: an exception leaves the run stage only when the run was clicked,
    [call_openai] returned a body and [extract_output_text] raised on it,
    and it is that exception; the session is then left as it was and the
    head of the output stage has been shown.  No exception of
    [call_openai] leaves the run stage. *)
Theorem run_stage_raises_iff
    (requests_post : str -> list (str * str) -> json -> outcome)
    (py_repr : json -> str) (exc_text : exn -> str)
    (system_prompt user_prompt api_key : str) (image_data_url : option str)
    (run_clicked : bool) (st : session_state) (e : exn) :
  let run :=
    run_stage requests_post py_repr exc_text system_prompt user_prompt
      api_key image_data_url run_clicked st in
  (snd run = Raise e <->
   run_clicked = true /\ api_key <> [] /\ system_prompt <> [] /\
   exists u response_json,
     image_data_url = Some u /\ u <> [] /\
     call_openai requests_post py_repr api_key system_prompt user_prompt u
     = Ok response_json /\
     extract_output_text response_json = Raise e) /\
  (snd run = Raise e -> run = (offer, st, Raise e)).
Proof.
  intros run. subst run.
  destruct (RunFacts.run_stage_cases requests_post py_repr exc_text
              system_prompt user_prompt api_key image_data_url run_clicked st)
    as [[Himg H]|[(Himg & Hclick & H)|[(Himg & Hclick & msg & H)|
        (Himg & Hclick & u & response_json & Hu & Hkey & Hprompt & Hcall &
         [(e' & Hext & H)|(output_text & Hext & H)])]]];
    rewrite H; cbn [snd].
  - split; [| done]. split; [done |].
    intros (_ & _ & _ & u & _ & -> & Hu & _). by destruct u.
  - split; [| done]. split; [done |]. intros (? & _). congruence.
  - split; [| done]. split; [done |].
    intros (_ & Hkey & Hprompt & u & response_json & -> & Hu & Hcall & Hext).
    revert H. unfold run_stage. rewrite Himg. cbn [negb].
    destruct run_clicked; [| done]. cbn [negb].
    destruct api_key as [|k key]; [done |].
    destruct system_prompt as [|p prompt]; [done |].
    destruct u as [|c u]; [done |]. rewrite Hcall, Hext. done.
  - split.
    + split.
      * intros [= ->]. split; [done |]. split; [done |]. split; [done |].
        exists u, response_json. subst image_data_url.
        split; [done |]. split; [by destruct u |]. done.
      * intros (_ & _ & _ & u' & response_json' & Hu' & _ & Hcall' & Hext').
        subst image_data_url. injection Hu' as <-. congruence.
    + by intros [= ->].
  - split; [| done]. split; [done |].
    intros (_ & _ & _ & u' & response_json' & Hu' & _ & Hcall' & Hext').
    subst image_data_url. injection Hu' as <-. congruence.
Qed.

Lemma run_stage_raises_iff_witness :
  run_stage (always_post (Responded list_resp)) sample_repr sample_exc_text
    (py "S") (py "U") (py "sk-1") (Some sample_data_url) true earlier_session
  = (offer, earlier_session, Raise AttributeError).
Proof.
  exact (proj2 (run_stage_raises_iff (always_post (Responded list_resp))
                  sample_repr sample_exc_text (py "S") (py "U") (py "sk-1")
                  (Some sample_data_url) true earlier_session AttributeError)
           eq_refl).
Defined.

Module PageFacts.
Section facts.
Variable requests_get : str -> list (str * str) -> outcome.
Variable requests_post : str -> list (str * str) -> json -> outcome.
Variable py_repr : json -> str.
Variable json_loads : str -> result json.
Variable json_dumps : json -> str.
Variable exc_text : exn -> str.
Variable image_error : option (list byte) -> option exn.
Variables system_prompt user_prompt : str.

Local Abbreviation page_body' :=
  (page_body requests_get requests_post py_repr json_loads json_dumps
     exc_text image_error system_prompt user_prompt).
Local Abbreviation run_stage' :=
  (run_stage requests_post py_repr exc_text system_prompt user_prompt).
Local Abbreviation load_image' := (load_image requests_get image_error).

(** [page_body] by the outcome of its stages. *)
Lemma page_body_load_raises api_key input run_clicked st e :
  snd (load_image' input) = Raise e ->
  page_body' api_key input run_clicked st
  = (st_subheader (py "Input") :: fst (load_image' input), st, Raise e).
Proof.
  unfold page_body. destruct (load_image' input) as [ev1 loaded].
  cbn [fst snd]. by intros ->.
Qed.

Lemma page_body_not_continue api_key input run_clicked st o ev2 st' c :
  snd (load_image' input) = Ok o ->
  run_stage' api_key o run_clicked st = (ev2, st', c) ->
  c <> Ok Continue ->
  page_body' api_key input run_clicked st
  = ((st_subheader (py "Input") :: fst (load_image' input)) ++ ev2, st', c).
Proof.
  unfold page_body. destruct (load_image' input) as [ev1 loaded].
  cbn [fst snd]. intros -> -> Hc. by destruct c as [[]|].
Qed.

Lemma page_body_continue api_key input run_clicked st o ev2 st' :
  snd (load_image' input) = Ok o ->
  run_stage' api_key o run_clicked st = (ev2, st', Ok Continue) ->
  page_body' api_key input run_clicked st
  = ((st_subheader (py "Input") :: fst (load_image' input)) ++ ev2
     ++ List.map shown (fst (show_last_result json_loads json_dumps st')),
     st',
     match snd (show_last_result json_loads json_dumps st') with
     | Ok _ => Ok Continue
     | Raise e => Raise e
     end).
Proof.
  unfold page_body. destruct (load_image' input) as [ev1 loaded].
  cbn [fst snd]. intros -> ->.
  by destruct (show_last_result json_loads json_dumps st') as [ws r].
Qed.
End facts.
End PageFacts.

(** X19: when the script is stopped, the session is as it was, the last
    thing shown is an error message, the run had been clicked on a loaded
    image, and no widget of the result display is shown, neither for this
    run nor for the result of an earlier one. *)
Theorem page_body_stop
    (requests_get : str -> list (str * str) -> outcome)
    (requests_post : str -> list (str * str) -> json -> outcome)
    (py_repr : json -> str) (json_loads : str -> result json)
    (json_dumps : json -> str) (exc_text : exn -> str)
    (image_error : option (list byte) -> option exn)
    (system_prompt user_prompt api_key : str) (input : image_input)
    (run_clicked : bool) (st st' : session_state) (ev : list page_event) :
  page_body requests_get requests_post py_repr json_loads json_dumps exc_text
    image_error system_prompt user_prompt api_key input run_clicked st
  = (ev, st', Ok Stop) ->
  st' = st /\
  run_clicked = true /\
  (exists u, snd (load_image requests_get image_error input) = Ok (Some u)) /\
  (exists msg, last ev = Some (st_error msg)) /\
  (forall w, shown w ∉ ev).
Proof.
  intros Hpage.
  destruct (snd (load_image requests_get image_error input))
    as [o|e] eqn:Hload.
  2:{ by rewrite (PageFacts.page_body_load_raises _ _ _ _ _ _ _ _ _ _ _ _ _ _
                    Hload) in Hpage. }
  destruct (RunFacts.run_stage_cases requests_post py_repr exc_text
              system_prompt user_prompt api_key o run_clicked st)
    as [[Himg H]|[(Himg & Hclick & H)|[(Himg & Hclick & msg & H)|
        (Himg & Hclick & u & response_json & Hu & Hkey & Hprompt & Hcall &
         [(e' & Hext & H)|(output_text & Hext & H)])]]].
  - rewrite (PageFacts.page_body_continue _ _ _ json_loads json_dumps _ _ _ _
               _ _ _ _ _ _ _ Hload H) in Hpage.
    injection Hpage as _ _ Hc. by destruct (snd (show_last_result _ _ _)).
  - rewrite (PageFacts.page_body_continue _ _ _ json_loads json_dumps _ _ _ _
               _ _ _ _ _ _ _ Hload H) in Hpage.
    injection Hpage as _ _ Hc. by destruct (snd (show_last_result _ _ _)).
  - rewrite (PageFacts.page_body_not_continue _ _ _ json_loads json_dumps _ _
               _ _ _ _ _ _ _ _ _ _ Hload H ltac:(discriminate)) in Hpage.
    assert (st' = st) as -> by congruence.
    assert (ev = (st_subheader (py "Input")
                  :: fst (load_image requests_get image_error input))
                 ++ offer ++ [st_error msg]) as -> by congruence.
    split; [done |]. split; [done |]. split.
    { destruct o as [u|]; [by exists u | done]. }
    split.
    + exists msg. by rewrite !app_assoc, last_snoc.
    + intros w. apply RunFacts.not_shown_app; [| apply RunFacts.not_shown_offer].
      intros [?|Hin]%elem_of_cons; [done |].
      by apply RunFacts.load_image_not_shown in Hin.
  - rewrite (PageFacts.page_body_not_continue _ _ _ json_loads json_dumps _ _
               _ _ _ _ _ _ _ _ _ _ Hload H ltac:(discriminate)) in Hpage.
    done.
  - rewrite (PageFacts.page_body_continue _ _ _ json_loads json_dumps _ _ _ _
               _ _ _ _ _ _ _ Hload H) in Hpage.
    injection Hpage as _ _ Hc. by destruct (snd (show_last_result _ _ _)).
Qed.

Lemma page_body_stop_witness :
  earlier_session = earlier_session /\
  true = true /\
  (exists u,
     snd (load_image (always (Responded png_resp)) renders_all
            (UploadFile (Some png_file))) = Ok (Some u)) /\
  (exists msg,
     last [st_subheader (py "Input"); st_image (py "Uploaded image");
           st_subheader (py "Output"); st_button (py "Run extraction");
           st_error (py "API call failed: timed out")]
     = Some (st_error msg)) /\
  (forall w,
     shown w ∉ [st_subheader (py "Input"); st_image (py "Uploaded image");
                st_subheader (py "Output"); st_button (py "Run extraction");
                st_error (py "API call failed: timed out")]).
Proof.
  apply (page_body_stop (always (Responded png_resp))
           (always_post (Failed (py "timed out"))) sample_repr sample_loads
           sample_dumps sample_exc_text renders_all (py "S") (py "U")
           (py "sk-1") (UploadFile (Some png_file)) true earlier_session).
  reflexivity.
Defined.

(** X20: one run of the page keeps the session in step: if the stored
    text was the text extracted from the stored body (or nothing was
    stored), it is so afterwards, however the run ends; and without a
    click the session is left as it was. *)
Theorem page_body_consistent
    (requests_get : str -> list (str * str) -> outcome)
    (requests_post : str -> list (str * str) -> json -> outcome)
    (py_repr : json -> str) (json_loads : str -> result json)
    (json_dumps : json -> str) (exc_text : exn -> str)
    (image_error : option (list byte) -> option exn)
    (system_prompt user_prompt api_key : str) (input : image_input)
    (run_clicked : bool) (st : session_state) :
  let st' :=
    snd (fst (page_body requests_get requests_post py_repr json_loads
                json_dumps exc_text image_error system_prompt user_prompt
                api_key input run_clicked st)) in
  (consistent st -> consistent st') /\
  (run_clicked = false -> st' = st).
Proof.
  intros st'. subst st'.
  destruct (snd (load_image requests_get image_error input))
    as [o|e] eqn:Hload.
  2:{ by rewrite (PageFacts.page_body_load_raises _ requests_post py_repr
                    json_loads json_dumps exc_text _ system_prompt user_prompt
                    api_key _ run_clicked st _ Hload). }
  destruct (RunFacts.run_stage_cases requests_post py_repr exc_text
              system_prompt user_prompt api_key o run_clicked st)
    as [[Himg H]|[(Himg & Hclick & H)|[(Himg & Hclick & msg & H)|
        (Himg & Hclick & u & response_json & Hu & Hkey & Hprompt & Hcall &
         [(e' & Hext & H)|(output_text & Hext & H)])]]].
  - by rewrite (PageFacts.page_body_continue _ _ _ json_loads json_dumps _ _ _
                  _ _ _ _ _ _ _ _ Hload H).
  - by rewrite (PageFacts.page_body_continue _ _ _ json_loads json_dumps _ _ _
                  _ _ _ _ _ _ _ _ Hload H).
  - by rewrite (PageFacts.page_body_not_continue _ _ _ json_loads json_dumps _
                  _ _ _ _ _ _ _ _ _ _ _ Hload H ltac:(discriminate)).
  - by rewrite (PageFacts.page_body_not_continue _ _ _ json_loads json_dumps _
                  _ _ _ _ _ _ _ _ _ _ _ Hload H ltac:(discriminate)).
  - rewrite (PageFacts.page_body_continue _ _ _ json_loads json_dumps _ _ _
               _ _ _ _ _ _ _ _ Hload H). cbn [fst snd].
    split; [| congruence]. intros _. exact Hext.
Qed.

Lemma page_body_consistent_witness :
  consistent
    (snd (fst (page_body (always (Responded png_resp))
                 (always_post (Responded list_resp)) sample_repr sample_loads
                 sample_dumps sample_exc_text renders_all (py "S") (py "U")
                 (py "sk-1") (ImageURL sample_url) true earlier_session))).
Proof.
  apply (page_body_consistent (always (Responded png_resp))
           (always_post (Responded list_resp)) sample_repr sample_loads
           sample_dumps sample_exc_text renders_all (py "S") (py "U")
           (py "sk-1") (ImageURL sample_url) true earlier_session).
  reflexivity.
Defined.

(** X21: a successful run shows its own result and nothing of an earlier
    one: when the input stage yields an image reference, the key and the
    system prompt are not empty, [call_openai] returns a body and
    [extract_output_text] a text for it, the page is, whatever the session
    held before, the input stage, the head of the output stage and the
    display of the new body and text, which are stored; and if that text
    is empty the display is the warning and the body just received,
    without any decoding. *)
Theorem page_body_fresh_result
    (requests_get : str -> list (str * str) -> outcome)
    (requests_post : str -> list (str * str) -> json -> outcome)
    (py_repr : json -> str) (json_loads : str -> result json)
    (json_dumps : json -> str) (exc_text : exn -> str)
    (image_error : option (list byte) -> option exn)
    (system_prompt user_prompt api_key : str) (input : image_input)
    (st : session_state) (u : str) (response_json : json)
    (output_text : str) :
  snd (load_image requests_get image_error input) = Ok (Some u) ->
  api_key <> [] ->
  system_prompt <> [] ->
  call_openai requests_post py_repr api_key system_prompt user_prompt u
  = Ok response_json ->
  extract_output_text response_json = Ok output_text ->
  page_body requests_get requests_post py_repr json_loads json_dumps exc_text
    image_error system_prompt user_prompt api_key input true st
  = ((st_subheader (py "Input")
      :: fst (load_image requests_get image_error input))
     ++ offer
     ++ List.map shown
          (fst (show_last_result json_loads json_dumps
                  (fresh_session response_json output_text))),
     fresh_session response_json output_text,
     match snd (show_last_result json_loads json_dumps
                  (fresh_session response_json output_text)) with
     | Ok _ => Ok Continue
     | Raise e => Raise e
     end) /\
  (output_text = [] ->
   show_last_result json_loads json_dumps
     (fresh_session response_json output_text)
   = ([st_warning
         (py "No output_text found in response. Showing raw response.");
       st_json response_json], Ok ())).
Proof.
  intros Hload Hkey Hprompt Hcall Hext. split; [| by intros ->].
  apply PageFacts.page_body_continue with (o := Some u); [done |].
  pose proof (RunFacts.load_image_has_image _ _ _ _ Hload) as Himg.
  unfold run_stage. rewrite Himg. cbn [negb].
  destruct api_key as [|k key]; [done |].
  destruct system_prompt as [|p prompt]; [done |].
  destruct u as [|c u]; [done |]. by rewrite Hcall, Hext.
Qed.

Lemma page_body_fresh_result_witness :
  page_body (always (Responded png_resp))
    (always_post (Responded answer_resp)) sample_repr sample_loads
    sample_dumps sample_exc_text renders_all (py "S") (py "U") (py "sk-1")
    (ImageURL sample_url) true refused_session
  = ((st_subheader (py "Input")
      :: fst (load_image (always (Responded png_resp)) renders_all
                (ImageURL sample_url)))
     ++ offer
     ++ List.map shown
          (fst (show_last_result sample_loads sample_dumps
                  (fresh_session sample_response
                     (py "{" ++ newline ++ py "}")))),
     fresh_session sample_response (py "{" ++ newline ++ py "}"),
     match snd (show_last_result sample_loads sample_dumps
                  (fresh_session sample_response
                     (py "{" ++ newline ++ py "}"))) with
     | Ok _ => Ok Continue
     | Raise e => Raise e
     end).
Proof.
  refine (proj1 (page_body_fresh_result (always (Responded png_resp))
            (always_post (Responded answer_resp)) sample_repr sample_loads
            sample_dumps sample_exc_text renders_all (py "S") (py "U")
            (py "sk-1") (ImageURL sample_url) refused_session sample_data_url
            sample_response (py "{" ++ newline ++ py "}") _ _ _ _ _));
    try discriminate; reflexivity.
Defined.

(** X22: after a change of the key field the sidebar shows exactly one
    status line.  It is the success line ["API key looks valid"] exactly
    when the field holds a non-empty key and the GET of the model list
    with that key was answered with an ok status; otherwise it is an
    error line, and for an empty or absent key the error line ["Missing
    API key"], whatever the remote end. *)
Theorem sidebar_after_key_change
    (requests_get : str -> list (str * str) -> outcome)
    (api_key_input : option str) :
  let line := sidebar_status (update_api_key_status requests_get api_key_input) in
  let accepted :=
    exists key resp,
      api_key_input = Some key /\ key <> [] /\
      requests_get (OPENAI_API_BASE ++ py "/models") (bearer key)
      = Responded resp /\
      ok resp = true in
  (accepted -> line = [st_success (py "API key looks valid")]) /\
  (~ accepted -> exists msg, line = [st_error msg]) /\
  (forall msg, line = [st_success msg] -> accepted) /\
  (api_key_input = None \/ api_key_input = Some [] ->
   line = [st_error (py "Missing API key")]).
Proof.
  intros line accepted. subst line accepted.
  unfold update_api_key_status, sidebar_status, validate_api_key.
  destruct api_key_input as [[|k key]|]; cbn [api_key_ok api_key_msg].
  - split; [by intros (? & ? & [= <-] & ? & _) |].
    split; [by eauto |]. split; [done |]. done.
  - destruct (requests_get (OPENAI_API_BASE ++ py "/models")
                (bearer (k :: key))) as [resp|err] eqn:Hget.
    + destruct (ok resp) eqn:Hok; cbn [api_key_ok api_key_msg].
      * split; [done |]. split.
        { intros []. by exists (k :: key), resp. }
        split; [| by intros [|]].
        intros _ _. by exists (k :: key), resp.
      * assert (Hno : ~ (exists key0 resp0,
                  Some (k :: key) = Some key0 /\ key0 <> [] /\
                  requests_get (OPENAI_API_BASE ++ py "/models") (bearer key0)
                  = Responded resp0 /\ ok resp0 = true)).
        { intros (key0 & resp0 & [= <-] & _ & Hget0 & Hok0). congruence. }
        destruct (status_code resp =? 401); cbn [api_key_ok api_key_msg];
          (split; [done |]); (split; [by eauto |]);
          (split; [done | by intros [|]]).
    + cbn [api_key_ok api_key_msg].
      assert (Hno : ~ (exists key0 resp0,
                Some (k :: key) = Some key0 /\ key0 <> [] /\
                requests_get (OPENAI_API_BASE ++ py "/models") (bearer key0)
                = Responded resp0 /\ ok resp0 = true)).
      { intros (key0 & resp0 & [= <-] & _ & Hget0 & Hok0). congruence. }
      split; [done |]. split; [by eauto |]. split; [done | by intros [|]].
  - split; [by intros (? & ? & ? & _) |].
    split; [by eauto |]. split; [done |]. done.
Qed.
